(** * XII-OS Deep Research page ([deep_research_openai.py])

    A shallow embedding of the Streamlit script and of the Python
    library functions it calls ([str] truthiness, f-string formatting,
    [float.__repr__], [datetime.isoformat], [json.dumps], [json.loads],
    the default bounds of [st.date_input]), followed by the properties
    of the page. *)

From Stdlib Require Import ZArith NArith List String Ascii Lia Bool SpecFloat.
From stdpp Require Import gmap strings list.

Local Open Scope N_scope.

(** ** Python values *)

Module Py.

(** A Python [str] is a sequence of Unicode code points. *)
Definition pystr : Type := list N.

(** Source-code string literals (all of them are ASCII in this script). *)
Definition lit (s : string) : pystr :=
  map N_of_ascii (list_ascii_of_string s).

(** Truthiness of a [str]: only the empty string is false. *)
Definition str_truthy (s : pystr) : bool :=
  match s with
  | [] => false
  | _ :: _ => true
  end.

(** Truthiness of [os.environ.get(...)]: [None] and [''] are false. *)
Definition opt_str_truthy (o : option pystr) : bool :=
  match o with
  | None => false
  | Some s => str_truthy s
  end.

(** Unicode scalar values: code points that are not surrogates.  Text
    that reaches the script through the browser is made of these. *)
Definition is_high_surrogate (c : N) : bool := (0xD800 <=? c) && (c <=? 0xDBFF).
Definition is_low_surrogate (c : N) : bool := (0xDC00 <=? c) && (c <=? 0xDFFF).
Definition is_scalar (c : N) : bool :=
  (c <? 0x110000) && negb ((0xD800 <=? c) && (c <=? 0xDFFF)).
Definition is_text (s : pystr) : bool := forallb is_scalar s.

(** *** Decimal formatting of non-negative integers *)

Definition digit_char (d : N) : N := 48 + d.

Fixpoint dec_digits (fuel : nat) (n : N) (acc : pystr) : pystr :=
  match fuel with
  | O => acc
  | S fuel' =>
      let acc' := digit_char (n mod 10) :: acc in
      if n <? 10 then acc' else dec_digits fuel' (n / 10) acc'
  end.

(** [str(n)] for [n >= 0]; a number has no more decimal digits than bits. *)
Definition dec (n : N) : pystr := dec_digits (S (N.to_nat (N.size n))) n [].

(** ["%0<w>d" % n] *)
Definition zfill (w : nat) (s : pystr) : pystr :=
  repeat 48 (w - length s)%nat ++ s.
Definition fmt_0d (w : nat) (n : N) : pystr := zfill w (dec n).

(** *** Floats: IEEE 754 binary64 *)

Definition float : Type := spec_float.
Definition prec : Z := 53.
Definition emax : Z := 1024.

(** The correctly rounded (nearest, ties to even) binary64 of the
    rational [n / d], for [n >= 0] and [d > 0]. *)
Definition float_of_ratio (neg : bool) (n d : Z) : float :=
  match n with
  | Z0 => S754_zero neg
  | _ =>
      let '(mz, ez, lz) := SFdiv_core_binary prec emax n 0 d 0 in
      binary_round_aux prec emax neg mz ez lz
  end.

(** [float("<m>e<e>")]: the binary64 nearest to [m * 10^e], [m >= 0]. *)
Definition float_of_decimal (neg : bool) (m : Z) (e : Z) : float :=
  if (0 <=? e)%Z then float_of_ratio neg (m * 10 ^ e)%Z 1
  else float_of_ratio neg m (10 ^ (- e))%Z.

Definition float_eqb (x y : float) : bool :=
  match x, y with
  | S754_zero s, S754_zero t => Bool.eqb s t
  | S754_infinity s, S754_infinity t => Bool.eqb s t
  | S754_nan, S754_nan => true
  | S754_finite s m e, S754_finite t n f =>
      Bool.eqb s t && Pos.eqb m n && Z.eqb e f
  | _, _ => false
  end.

(** The value of a finite positive float [m * 2^e] as a fraction. *)
Definition ratio_of_finite (m : positive) (e : Z) : Z * Z :=
  if (0 <=? e)%Z then (Z.pos m * 2 ^ e, 1)%Z else (Z.pos m, 2 ^ (- e))%Z.

(** [x * 10^k] for a fraction [x]. *)
Definition scale10 (x : Z * Z) (k : Z) : Z * Z :=
  let '(n, d) := x in
  if (0 <=? k)%Z then (n * 10 ^ k, d)%Z else (n, d * 10 ^ (- k))%Z.

(** The decimal point position: the least [k] from [k0] on with
    [x < 10^k]. *)
Fixpoint decpt_from (fuel : nat) (x : Z * Z) (k : Z) : Z :=
  match fuel with
  | O => k
  | S fuel' =>
      let '(n, d) := scale10 x (- k) in
      if (n <? d)%Z then k else decpt_from fuel' x (k + 1)%Z
  end.

Definition decpt_of (m : positive) (e : Z) : Z :=
  let bits := (Z.pos (digits2_pos m) + e)%Z in
  decpt_from 8 (ratio_of_finite m e) ((bits - 1) * 30103 / 100000 - 2)%Z.

(** The digits of the shortest decimal that reads back as the float
    (ties between candidates of one length go to the nearer one); the
    result is the digit string as an integer and the decimal point
    position [p], the value being [0.<digits> * 10^p]. *)
Fixpoint shortest_from (fuel : nat) (m : positive) (e : Z) (p : Z) (n : Z)
  : Z * Z :=
  let x := S754_finite false m e in
  let '(sn, sd) := scale10 (ratio_of_finite m e) (n - p) in
  let lo := (sn / sd)%Z in
  let hi := (lo + 1)%Z in
  let ok_lo := float_eqb (float_of_decimal false lo (p - n)) x in
  let ok_hi := float_eqb (float_of_decimal false hi (p - n)) x in
  let rem2 := (2 * (sn - lo * sd))%Z in
  let pick_hi :=
    if ok_lo && ok_hi
    then (sd <? rem2)%Z || ((sd =? rem2)%Z && Z.odd lo)
    else ok_hi in
  match fuel with
  | S fuel' =>
      if ok_lo || ok_hi
      then (if pick_hi then hi else lo, n)
      else shortest_from fuel' m e p (n + 1)%Z
  | O => (if pick_hi then hi else lo, n)
  end.

Definition strip_zeros_fuel : nat := 20.

Fixpoint strip_trailing_zeros (fuel : nat) (c : Z) : Z :=
  match fuel with
  | O => c
  | S fuel' =>
      if ((c mod 10 =? 0) && negb (c =? 0))%Z
      then strip_trailing_zeros fuel' (c / 10)%Z
      else c
  end.

Definition shortest_digits (m : positive) (e : Z) : pystr * Z :=
  let p := decpt_of m e in
  let '(c, n) := shortest_from 16 m e p 1 in
  (* [c] has [n] digits, or is [10^n] when the digits rounded up *)
  let p' := if (c =? 10 ^ n)%Z then (p + 1)%Z else p in
  (dec (Z.to_N (strip_trailing_zeros strip_zeros_fuel c)), p').

Definition zeros (k : Z) : pystr := repeat 48 (Z.to_nat k).

(** The exponent of the 'r' format: a sign and at least two digits. *)
Definition fmt_exp (x : Z) : pystr :=
  (if (x <? 0)%Z then 45 else 43) :: fmt_0d 2 (Z.to_N (Z.abs x)).

(** [float_repr] of a finite non-zero magnitude from its shortest digits
    (the 'r' format of [PyOS_double_to_string], with [".0"] added to
    integers). *)
Definition fmt_repr (digits : pystr) (decpt : Z) : pystr :=
  let len := Z.of_nat (length digits) in
  if ((decpt <=? -4) || (16 <? decpt))%Z then
    match digits with
    | [] => []
    | d :: ds =>
        d :: (match ds with [] => [] | _ => 46 :: ds end)
          ++ 101 :: fmt_exp (decpt - 1)
    end
  else if (decpt <=? 0)%Z then
    48 :: 46 :: zeros (- decpt) ++ digits
  else if (decpt <? len)%Z then
    firstn (Z.to_nat decpt) digits ++ 46 :: skipn (Z.to_nat decpt) digits
  else
    digits ++ zeros (decpt - len) ++ [46; 48].

Definition sign_prefix (neg : bool) (s : pystr) : pystr :=
  if neg then 45 :: s else s.

(** [float.__repr__] (also [str] and [format] with an empty spec). *)
Definition float_repr (x : float) : pystr :=
  match x with
  | S754_zero s => sign_prefix s (lit "0.0")
  | S754_infinity s => sign_prefix s (lit "inf")
  | S754_nan => lit "nan"
  | S754_finite s m e =>
      let '(digits, decpt) := shortest_digits m e in
      sign_prefix s (fmt_repr digits decpt)
  end.

(** *** [datetime] *)

(** A naive [datetime] (no [tzinfo]), as [datetime.now()] returns. *)
Record datetime : Type := mkDatetime {
  year : N; month : N; day : N;
  hour : N; minute : N; second : N; microsecond : N }.

Definition is_leap (y : N) : bool :=
  (y mod 4 =? 0) && (negb (y mod 100 =? 0) || (y mod 400 =? 0)).

Definition days_in_month (y m : N) : N :=
  if m =? 2 then (if is_leap y then 29 else 28)
  else if (m =? 4) || (m =? 6) || (m =? 9) || (m =? 11) then 30
  else 31.

(** The field ranges every [datetime] object satisfies. *)
Definition valid_datetime (t : datetime) : bool :=
  (1 <=? year t) && (year t <=? 9999) &&
  (1 <=? month t) && (month t <=? 12) &&
  (1 <=? day t) && (day t <=? days_in_month (year t) (month t)) &&
  (hour t <? 24) && (minute t <? 60) && (second t <? 60) &&
  (microsecond t <? 1000000).

(** [datetime.isoformat()] with the default separator and time spec:
    ["%04d-%02d-%02d" "T" "%02d:%02d:%02d"], then [".%06d"] when the
    microsecond is not zero. *)
Definition isoformat (t : datetime) : pystr :=
  fmt_0d 4 (year t) ++ 45 :: fmt_0d 2 (month t) ++ 45 :: fmt_0d 2 (day t)
  ++ 84 :: fmt_0d 2 (hour t) ++ 58 :: fmt_0d 2 (minute t)
  ++ 58 :: fmt_0d 2 (second t)
  ++ (if microsecond t =? 0 then [] else 46 :: fmt_0d 6 (microsecond t)).

(** *** [date] *)

(** A [date]: the year, month and day of a [datetime]
    ([datetime.date()]). *)
Record date : Type := mkDate { dyear : N; dmonth : N; dday : N }.

Definition date_of (t : datetime) : date :=
  mkDate (year t) (month t) (day t).

(** [a < b] on dates. *)
Definition date_ltb (a b : date) : bool :=
  (dyear a <? dyear b)
  || ((dyear a =? dyear b)
      && ((dmonth a <? dmonth b)
          || ((dmonth a =? dmonth b) && (dday a <? dday b)))).

(** [str] of a [date]: ["%04d-%02d-%02d"]. *)
Definition date_str (d : date) : pystr :=
  fmt_0d 4 (dyear d) ++ 45 :: fmt_0d 2 (dmonth d) ++ 45 :: fmt_0d 2 (dday d).

(** [str] of an [int]. *)
Definition int_str (z : Z) : pystr :=
  sign_prefix (z <? 0)%Z (dec (Z.to_N (Z.abs z))).

(** *** Objects that [json] handles *)

(** A [dict] is kept as its items in insertion order; the keys are
    strings, as they are throughout this script. *)
#[warnings="-register-all"]
Inductive pyobj : Type :=
  | PyNone
  | PyBool (b : bool)
  | PyInt (z : Z)
  | PyFloat (x : float)
  | PyStr (s : pystr)
  | PyList (l : list pyobj)
  | PyDict (items : list (pystr * pyobj)).

Fixpoint pystr_eqb (a b : pystr) : bool :=
  match a, b with
  | [], [] => true
  | x :: a', y :: b' => (x =? y) && pystr_eqb a' b'
  | _, _ => false
  end.

(** [d[k] = v]: replaces the value of an existing key in place, appends
    a new key at the end. *)
Fixpoint dict_set (k : pystr) (v : pyobj) (items : list (pystr * pyobj))
  : list (pystr * pyobj) :=
  match items with
  | [] => [(k, v)]
  | (k', v') :: rest =>
      if pystr_eqb k' k then (k', v) :: rest
      else (k', v') :: dict_set k v rest
  end.

Fixpoint dict_get (k : pystr) (items : list (pystr * pyobj)) : option pyobj :=
  match items with
  | [] => None
  | (k', v') :: rest => if pystr_eqb k' k then Some v' else dict_get k rest
  end.

End Py.

Import Py.

(** ** The [json] module *)

Module Json.

(** Characters with a role in the JSON text. *)
Abbreviation c_tab := 9 (only parsing).
Abbreviation c_lf := 10 (only parsing).
Abbreviation c_cr := 13 (only parsing).
Abbreviation c_space := 32 (only parsing).
Abbreviation c_quote := 34 (only parsing).
Abbreviation c_plus := 43 (only parsing).
Abbreviation c_comma := 44 (only parsing).
Abbreviation c_minus := 45 (only parsing).
Abbreviation c_dot := 46 (only parsing).
Abbreviation c_slash := 47 (only parsing).
Abbreviation c_zero := 48 (only parsing).
Abbreviation c_colon := 58 (only parsing).
Abbreviation c_lbracket := 91 (only parsing).
Abbreviation c_backslash := 92 (only parsing).
Abbreviation c_rbracket := 93 (only parsing).
Abbreviation c_lbrace := 123 (only parsing).
Abbreviation c_rbrace := 125 (only parsing).

(** *** Encoding ([json.dumps] with [indent] given) *)

(** One digit of ['{0:04x}'.format(n)]. *)
Definition hex_char (d : N) : N := if d <? 10 then 48 + d else 87 + d.

Definition hex4 (n : N) : pystr :=
  [hex_char (n / 4096 mod 16); hex_char (n / 256 mod 16);
   hex_char (n / 16 mod 16); hex_char (n mod 16)].

(** [py_encode_basestring_ascii]: the replacement of one character.
    Printable ASCII other than the quote and the backslash is kept. *)
Definition escape_char (c : N) : pystr :=
  if c =? c_backslash then [c_backslash; c_backslash]
  else if c =? c_quote then [c_backslash; c_quote]
  else if c =? 8 then [c_backslash; 98]
  else if c =? 12 then [c_backslash; 102]
  else if c =? c_lf then [c_backslash; 110]
  else if c =? c_cr then [c_backslash; 114]
  else if c =? c_tab then [c_backslash; 116]
  else if (32 <=? c) && (c <=? 126) then [c]
  else if c <? 0x10000 then c_backslash :: 117 :: hex4 c
  else
    let n := c - 0x10000 in
    let s1 := N.lor 0xd800 (N.land (N.shiftr n 10) 0x3ff) in
    let s2 := N.lor 0xdc00 (N.land n 0x3ff) in
    c_backslash :: 117 :: hex4 s1 ++ c_backslash :: 117 :: hex4 s2.

Definition escape (s : pystr) : pystr := flat_map escape_char s.

Definition encode_basestring_ascii (s : pystr) : pystr :=
  c_quote :: escape s ++ [c_quote].

(** [floatstr]: [NaN], [Infinity] and [-Infinity] are spelled out, the
    other floats are written with [float.__repr__]. *)
Definition floatstr (x : float) : pystr :=
  match x with
  | S754_nan => lit "NaN"
  | S754_infinity false => lit "Infinity"
  | S754_infinity true => lit "-Infinity"
  | _ => float_repr x
  end.

(** [int.__repr__] *)
Definition int_repr (z : Z) : pystr :=
  sign_prefix (z <? 0)%Z (dec (Z.to_N (Z.abs z))).

Definition newline_indent (indent level : nat) : pystr :=
  c_lf :: repeat c_space (indent * level).

Fixpoint join (sep : pystr) (parts : list pystr) : pystr :=
  match parts with
  | [] => []
  | [p] => p
  | p :: ps => p ++ sep ++ join sep ps
  end.

(** [_iterencode] at nesting depth [level]; the item separator is [","],
    the key separator [": "]. *)
Fixpoint encode (indent level : nat) (o : pyobj) : pystr :=
  match o with
  | PyNone => lit "null"
  | PyBool true => lit "true"
  | PyBool false => lit "false"
  | PyInt z => int_repr z
  | PyFloat x => floatstr x
  | PyStr s => encode_basestring_ascii s
  | PyList [] => lit "[]"
  | PyList l =>
      let nl := newline_indent indent (S level) in
      c_lbracket :: nl
        ++ join (c_comma :: nl) (map (encode indent (S level)) l)
        ++ newline_indent indent level ++ [c_rbracket]
  | PyDict [] => lit "{}"
  | PyDict items =>
      let nl := newline_indent indent (S level) in
      c_lbrace :: nl
        ++ join (c_comma :: nl)
             (map (fun kv => encode_basestring_ascii (fst kv)
                               ++ c_colon :: c_space
                               :: encode indent (S level) (snd kv)) items)
        ++ newline_indent indent level ++ [c_rbrace]
  end.

(** [json.dumps(o, indent=indent)] *)
Definition dumps (indent : nat) (o : pyobj) : pystr := encode indent 0 o.

(** *** Decoding ([json.loads]) *)

Definition is_ws (c : N) : bool :=
  (c =? c_space) || (c =? c_tab) || (c =? c_lf) || (c =? c_cr).

Fixpoint skip_ws (s : pystr) : pystr :=
  match s with
  | c :: r => if is_ws c then skip_ws r else s
  | [] => []
  end.

Definition hex_val (c : N) : option N :=
  if (48 <=? c) && (c <=? 57) then Some (c - 48)
  else if (97 <=? c) && (c <=? 102) then Some (c - 87)
  else if (65 <=? c) && (c <=? 70) then Some (c - 55)
  else None.

(** [_decode_uXXXX] *)
Definition decode_hex4 (a b c d : N) : option N :=
  x3 ← hex_val a; x2 ← hex_val b; x1 ← hex_val c; x0 ← hex_val d;
  Some (4096 * x3 + 256 * x2 + 16 * x1 + x0).

(** The [BACKSLASH] table. *)
Definition backslash (esc : N) : option N :=
  if esc =? c_quote then Some c_quote
  else if esc =? c_backslash then Some c_backslash
  else if esc =? c_slash then Some c_slash
  else if esc =? 98 then Some 8
  else if esc =? 102 then Some 12
  else if esc =? 110 then Some c_lf
  else if esc =? 114 then Some c_cr
  else if esc =? 116 then Some c_tab
  else None.

(** [scanstring] (strict), started after the opening quote: the decoded
    string and the text after the closing quote. *)
Fixpoint scanstring (s : pystr) : option (pystr * pystr) :=
  match s with
  | [] => None
  | c :: r =>
      if c =? c_quote then Some ([], r)
      else if c =? c_backslash then
        match r with
        | [] => None
        | esc :: r1 =>
            if esc =? 117 then
              match r1 with
              | h1 :: h2 :: h3 :: h4 :: r2 =>
                  match decode_hex4 h1 h2 h3 h4 with
                  | None => None
                  | Some uni =>
                      let single :=
                        match scanstring r2 with
                        | Some (t, rest) => Some (uni :: t, rest)
                        | None => None
                        end in
                      if is_high_surrogate uni then
                        match r2 with
                        | b :: u :: r3 =>
                            if (b =? c_backslash) && (u =? 117) then
                              match r3 with
                              | k1 :: k2 :: k3 :: k4 :: r4 =>
                                  match decode_hex4 k1 k2 k3 k4 with
                                  | None => None
                                  | Some uni2 =>
                                      if is_low_surrogate uni2 then
                                        match scanstring r4 with
                                        | Some (t, rest) =>
                                            Some (0x10000 + N.lor (N.shiftl (uni - 0xd800) 10) (uni2 - 0xdc00) :: t, rest)
                                        | None => None
                                        end
                                      else single
                                  end
                              | _ => None
                              end
                            else single
                        | _ => single
                        end
                      else single
                  end
              | _ => None
              end
            else
              match backslash esc with
              | None => None
              | Some c' =>
                  match scanstring r1 with
                  | Some (t, rest) => Some (c' :: t, rest)
                  | None => None
                  end
              end
        end
      else if c <? 32 then None
      else
        match scanstring r with
        | Some (t, rest) => Some (c :: t, rest)
        | None => None
        end
  end.

Definition is_digit (c : N) : bool := (48 <=? c) && (c <=? 57).

Fixpoint take_digits (s : pystr) : pystr * pystr :=
  match s with
  | c :: r =>
      if is_digit c then let '(ds, r') := take_digits r in (c :: ds, r')
      else ([], s)
  | [] => ([], [])
  end.

Definition digits_value (ds : pystr) : Z :=
  fold_left (fun acc c => (10 * acc + Z.of_N (c - 48))%Z) ds 0%Z.

(** [NUMBER_RE] matched at the start of [s]: an optional minus sign, an
    integer part ([0], or digits that do not start with [0]), an optional
    fraction (a dot and digits) and an optional exponent ([e] or [E], an
    optional sign, digits).  A fraction or an exponent makes a [float],
    their absence an [int]. *)
Definition scan_number (s : pystr) : option (pyobj * pystr) :=
  let '(neg, s1) :=
    match s with
    | c :: r => if c =? c_minus then (true, r) else (false, s)
    | [] => (false, s)
    end in
  let int_part :=
    match s1 with
    | c :: r =>
        if c =? c_zero then Some ([c], r)
        else if is_digit c then Some (take_digits s1)
        else None
    | [] => None
    end in
  match int_part with
  | None => None
  | Some (ids, s2) =>
      let '(frac, s3) :=
        match s2 with
        | c :: r =>
            if c =? c_dot then
              match take_digits r with
              | ([], _) => ([], s2)
              | (fds, r') => (fds, r')
              end
            else ([], s2)
        | [] => ([], s2)
        end in
      let '(has_exp, ex, s4) :=
        match s3 with
        | c :: r =>
            if (c =? 101) || (c =? 69) then
              let '(eneg, r1) :=
                match r with
                | sg :: r0 =>
                    if sg =? c_minus then (true, r0)
                    else if sg =? c_plus then (false, r0)
                    else (false, r)
                | [] => (false, r)
                end in
              match take_digits r1 with
              | ([], _) => (false, 0%Z, s3)
              | (eds, r') =>
                  (true, if eneg then (- digits_value eds)%Z
                         else digits_value eds, r')
              end
            else (false, 0%Z, s3)
        | [] => (false, 0%Z, s3)
        end in
      match frac, has_exp with
      | [], false =>
          Some (PyInt (if neg then - digits_value ids else digits_value ids), s4)
      | _, _ =>
          Some (PyFloat (float_of_decimal neg (digits_value (ids ++ frac))
                           (ex - Z.of_nat (length frac))), s4)
      end
  end.

Fixpoint strip_prefix (p s : pystr) : option pystr :=
  match p, s with
  | [], _ => Some s
  | a :: p', b :: s' => if a =? b then strip_prefix p' s' else None
  | _ :: _, [] => None
  end.

(** The constants of [scan_once], tried in its order around the
    number. *)
Definition scan_word (s : pystr) : option (pyobj * pystr) :=
  match strip_prefix (lit "null") s with
  | Some r => Some (PyNone, r)
  | None =>
  match strip_prefix (lit "true") s with
  | Some r => Some (PyBool true, r)
  | None =>
  match strip_prefix (lit "false") s with
  | Some r => Some (PyBool false, r)
  | None =>
  match scan_number s with
  | Some res => Some res
  | None =>
  match strip_prefix (lit "NaN") s with
  | Some r => Some (PyFloat S754_nan, r)
  | None =>
  match strip_prefix (lit "Infinity") s with
  | Some r => Some (PyFloat (S754_infinity false), r)
  | None =>
  match strip_prefix (lit "-Infinity") s with
  | Some r => Some (PyFloat (S754_infinity true), r)
  | None => None
  end end end end end end end.

(** [scan_once], [JSONObject] and [JSONArray].  [scan_members] starts
    after the opening quote of a key, [scan_elements] at a value. *)
Fixpoint scan_once (fuel : nat) (s : pystr) : option (pyobj * pystr) :=
  match fuel with
  | O => None
  | S fuel' =>
      match s with
      | [] => None
      | c :: r =>
          if c =? c_quote then
            match scanstring r with
            | Some (t, rest) => Some (PyStr t, rest)
            | None => None
            end
          else if c =? c_lbrace then
            match skip_ws r with
            | c1 :: r1 =>
                if c1 =? c_rbrace then Some (PyDict [], r1)
                else if c1 =? c_quote then scan_members fuel' [] r1
                else None
            | [] => None
            end
          else if c =? c_lbracket then
            match skip_ws r with
            | c1 :: r1 =>
                if c1 =? c_rbracket then Some (PyList [], r1)
                else scan_elements fuel' [] (c1 :: r1)
            | [] => None
            end
          else scan_word s
      end
  end
with scan_members (fuel : nat) (acc : list (pystr * pyobj)) (s : pystr)
  : option (pyobj * pystr) :=
  match fuel with
  | O => None
  | S fuel' =>
      match scanstring s with
      | None => None
      | Some (key, r) =>
          match skip_ws r with
          | c :: r1 =>
              if c =? c_colon then
                match scan_once fuel' (skip_ws r1) with
                | None => None
                | Some (v, r2) =>
                    let acc' := dict_set key v acc in
                    match skip_ws r2 with
                    | c2 :: r3 =>
                        if c2 =? c_rbrace then Some (PyDict acc', r3)
                        else if c2 =? c_comma then
                          match skip_ws r3 with
                          | c3 :: r4 =>
                              if c3 =? c_quote
                              then scan_members fuel' acc' r4
                              else None
                          | [] => None
                          end
                        else None
                    | [] => None
                    end
                end
              else None
          | [] => None
          end
      end
  end
with scan_elements (fuel : nat) (acc : list pyobj) (s : pystr)
  : option (pyobj * pystr) :=
  match fuel with
  | O => None
  | S fuel' =>
      match scan_once fuel' s with
      | None => None
      | Some (v, r) =>
          let acc' := acc ++ [v] in
          match skip_ws r with
          | c :: r1 =>
              if c =? c_rbracket then Some (PyList acc', r1)
              else if c =? c_comma
              then scan_elements fuel' acc' (skip_ws r1)
              else None
          | [] => None
          end
      end
  end.

(** [json.loads(s)]: one value between optional whitespace, and nothing
    after it; a leading byte order mark is refused. *)
Definition loads (s : pystr) : option pyobj :=
  match s with
  | 0xfeff :: _ => None
  | _ =>
      match scan_once (S (length s)) (skip_ws s) with
      | Some (v, r) =>
          match skip_ws r with
          | [] => Some v
          | _ :: _ => None
          end
      | None => None
      end
  end.

End Json.

(** ** The data of the page *)

(** One literal research result record: the inner [dict]s of the
    script, with their four fixed keys. *)
Module Finding.
Record t : Type := mk {
  title : pystr;
  content : pystr;
  relevance : float;
  source : pystr }.

(** The [dict] itself: its items in the order of the display. *)
Definition to_dict (f : t) : pyobj :=
  PyDict [(lit "title", PyStr (title f));
          (lit "content", PyStr (content f));
          (lit "relevance", PyFloat (relevance f));
          (lit "source", PyStr (source f))].
End Finding.

(** The [dict] stored in [st.session_state.results]. *)
Module ResearchResult.
Record t : Type := mk {
  query : pystr;
  model : pystr;
  timestamp : pystr;
  findings : list Finding.t }.

Definition to_dict (r : t) : pyobj :=
  PyDict [(lit "query", PyStr (query r));
          (lit "model", PyStr (model r));
          (lit "timestamp", PyStr (timestamp r));
          (lit "findings", PyList (map Finding.to_dict (findings r)))].
End ResearchResult.

(** ** Streamlit *)

Module St.

(** What a script run leaves on the page.  An input widget is recorded
    by its kind and label (and its options where it has some). *)
#[warnings="-register-all"]
Inductive element : Type :=
  | PageConfig (page_title layout : pystr)
  | Title (body : pystr)
  | Header (body : pystr)
  | Markdown (body : pystr)
  | Caption (body : pystr)
  | Warning (body : pystr)
  | Error (body : pystr)
  | Success (body : pystr)
  | Balloons
  | Selectbox (label : pystr) (options : list pystr)
  | Slider (label : pystr)
  | TextArea (label : pystr)
  | SelectSlider (label : pystr) (options : list pystr)
  | Checkbox (label : pystr)
  | Multiselect (label : pystr) (options : list pystr)
  | DateInput (label : pystr)
  | Button (label : pystr)
  | DownloadButton (label data file_name mime : pystr)
  | Sidebar (children : list element)
  | Expander (label : pystr) (children : list element)
  | Columns (left right : list element).

(** An instance of [Exception]; [message] is its [str]. *)
Record exc : Type := Exception { message : pystr }.

(** The library calls made while the result is built and rendered. *)
Inductive call : Type :=
  | CallSuccess
  | CallExpander (idx : nat)
  | CallMarkdown (idx : nat)
  | CallCaption (idx : nat)
  | CallDumps
  | CallDownloadButton
  | CallBalloons.

(** Which of those calls raise, and what.  The rest of the script's
    calls are taken to return. *)
Definition faults : Type := call -> option exc.
Definition no_faults : faults := fun _ => None.

(** [st.session_state] and the elements rendered so far. *)
Record page : Type := mkPage {
  session_state : gmap string ResearchResult.t;
  rendered : list element }.

Inductive outcome (A : Type) : Type :=
  | Returned (a : A)
  | Raised (e : exc).
Arguments Returned {A} a.
Arguments Raised {A} e.

(** A piece of the script: it may read the fault plan, change the page
    and raise. *)
Definition script (A : Type) : Type := faults -> page -> outcome A * page.

Definition ret {A} (a : A) : script A := fun _ p => (Returned a, p).

Definition raise {A} (e : exc) : script A := fun _ p => (Raised e, p).

Definition bind {A B} (m : script A) (k : A -> script B) : script B :=
  fun f p =>
    match m f p with
    | (Returned a, p') => k a f p'
    | (Raised e, p') => (Raised e, p')
    end.

(** [try: body / except Exception as e: handler(e)] *)
Definition try_except {A} (body : script A) (handler : exc -> script A)
  : script A :=
  fun f p =>
    match body f p with
    | (Returned a, p') => (Returned a, p')
    | (Raised e, p') => handler e f p'
    end.

Definition emit (el : element) : script unit :=
  fun _ p => (Returned tt,
              mkPage (session_state p) (rendered p ++ [el])).

(** A call that the fault plan may make raise. *)
Definition guarded (c : call) : script unit :=
  fun f p =>
    match f c with
    | Some e => (Raised e, p)
    | None => (Returned tt, p)
    end.

(** [with <container>: body]: the elements of [body] go into the
    container, also when [body] raises. *)
Definition within {A} (mk : list element -> element) (body : script A)
  : script A :=
  fun f p =>
    let '(r, p') := body f (mkPage (session_state p) []) in
    (r, mkPage (session_state p') (rendered p ++ [mk (rendered p')])).

(** [with st.spinner(text): body]: the spinner is shown while [body]
    runs and removed when it ends; it leaves nothing on the page. *)
Definition spinner {A} (text : pystr) (body : script A) : script A := body.

(** [st.session_state.<key> = value] *)
Definition session_set (key : string) (value : ResearchResult.t)
  : script unit :=
  fun _ p => (Returned tt,
              mkPage (<[key := value]> (session_state p)) (rendered p)).

Definition attribute_error (key : string) : exc :=
  Exception (lit "st.session_state has no attribute " ++ lit key).

(** [st.session_state.<key>]: an [AttributeError] when the key is not
    set. *)
Definition session_get (key : string) : script ResearchResult.t :=
  fun _ p =>
    match session_state p !! key with
    | Some v => (Returned v, p)
    | None => (Raised (attribute_error key), p)
    end.

(** [a, b = st.columns(2)] followed by [with a: left] and
    [with b: right]: the elements of each body go into its column, also
    when the body raises; [right] does not run when [left] raised. *)
Definition columns {A} (left : script unit) (right : script A) : script A :=
  fun f p =>
    match left f (mkPage (session_state p) []) with
    | (Returned _, p1) =>
        let '(r, p2) := right f (mkPage (session_state p1) []) in
        (r, mkPage (session_state p2)
              (rendered p ++ [Columns (rendered p1) (rendered p2)]))
    | (Raised e, p1) =>
        (Raised e,
         mkPage (session_state p1) (rendered p ++ [Columns (rendered p1) []]))
    end.

(** The date [years] years away from [d], as the date input computes
    its default bounds: the same month and day in the other year, 28
    February for a 29 February that the other year does not have.  A
    year outside 1..9999 is the [ValueError] of [date.replace]. *)
Definition adjust_years (d : date) (years : Z) : exc + date :=
  let y := (Z.of_N (dyear d) + years)%Z in
  if ((1 <=? y) && (y <=? 9999))%Z then
    inr (mkDate (Z.to_N y) (dmonth d)
           (if (dmonth d =? 2) && (dday d =? 29) && negb (is_leap (Z.to_N y))
            then 28 else dday d))
  else inl (Exception (lit "year " ++ int_str y ++ lit " is out of range")).

(** What [st.date_input(label, [first, last])] raises, if it does.
    With no [min_value] and no [max_value] the bounds are the first
    date of the value less ten years and the last date plus ten years;
    the call raises when a bound cannot be computed and when the lower
    bound is past the upper one.  (The dates of the value are then
    within the bounds, which is the last thing the call checks.) *)
Definition date_input_error (first last : datetime) : option exc :=
  match adjust_years (date_of first) (-10) with
  | inl e => Some e
  | inr lo =>
      match adjust_years (date_of last) 10 with
      | inl e => Some e
      | inr hi =>
          if date_ltb hi lo
          then Some (Exception
                       (lit "The `min_value`, set to " ++ date_str lo
                        ++ lit ", shouldn't be larger than the `max_value`, set to "
                        ++ date_str hi ++ lit "."))
          else None
      end
  end.

Definition date_input (label : pystr) (first last : datetime)
  : script unit :=
  match date_input_error first last with
  | Some e => raise e
  | None => emit (DateInput label)
  end.

End St.

Import St.

Declare Scope script_scope.
Delimit Scope script_scope with script.
Bind Scope script_scope with script.
Notation "x <- m ;; k" := (bind m (fun x => k))
  (at level 100, m at next level, k at level 200, right associativity)
  : script_scope.
Notation "m ;; k" := (bind m (fun _ => k))
  (at level 100, k at level 200, right associativity) : script_scope.

(** ** The script *)

Module DeepResearch.

Local Open Scope script_scope.

(** The options of the model select box. *)
Inductive ai_model : Type := gpt_4o | gpt_4 | gpt_3_5_turbo.

Definition model_label (m : ai_model) : pystr :=
  match m with
  | gpt_4o => lit "gpt-4o"
  | gpt_4 => lit "gpt-4"
  | gpt_3_5_turbo => lit "gpt-3.5-turbo"
  end.

Definition model_options : list pystr :=
  [lit "gpt-4o"; lit "gpt-4"; lit "gpt-3.5-turbo"].

Inductive depth : Type := Basic | Standard | Deep | Comprehensive.

Definition depth_options : list pystr :=
  [lit "Basic"; lit "Standard"; lit "Deep"; lit "Comprehensive"].

Inductive domain : Type := Tennis | Sports | Rules | History | Statistics.

Definition domain_options : list pystr :=
  [lit "Tennis"; lit "Sports"; lit "Rules"; lit "History"; lit "Statistics"].

(** The values the input widgets return in one run of the script, under
    the names of the variables that receive them. *)
Record widgets : Type := mkWidgets {
  model : ai_model;
  temperature : float;
  max_tokens : Z;
  query : pystr;
  search_depth : depth;
  include_citations : bool;
  domains : list domain;
  date_range : list datetime }.

(** The click that started the run, if one did: a button returns [True]
    only in the run its own click starts. *)
Inductive trigger : Type :=
  | NoClick
  | StartResearch
  | ExportResults.

Definition start_clicked (t : trigger) : bool :=
  match t with StartResearch => true | _ => false end.

Definition export_clicked (t : trigger) : bool :=
  match t with ExportResults => true | _ => false end.

(** The two literal findings (lines 61-72). *)
Definition finding_1 : Finding.t :=
  Finding.mk
    (lit "Tennis Tiebreaker Regulations")
    (lit "The Big 12 Conference employs a specific tiebreaker system in tennis matches. When two players are tied at 6-6 in a set, a tiebreaker game is played to determine the winner of the set. The first player to reach at least 7 points with a margin of 2 points wins the tiebreaker.")
    (float_of_decimal false 95 (-2))
    (lit "Big 12 Tennis Rulebook").

Definition finding_2 : Finding.t :=
  Finding.mk
    (lit "Match Statistics Analysis")
    (lit "According to recent match statistics, tiebreakers occur in approximately 22% of Big 12 tennis sets. Teams with higher first-serve percentages tend to win 67% of tiebreakers, suggesting the importance of serve performance in these critical moments.")
    (float_of_decimal false 82 (-2))
    (lit "XII-OS Analytics Database").

(** The dictionary display of lines 56-74.  It evaluates three names
    and the clock, none of which raises. *)
Definition build_results (w : widgets) (now : datetime) : ResearchResult.t :=
  ResearchResult.mk
    (query w)
    (model_label (model w))
    (isoformat now)
    [finding_1; finding_2].

(** Lines 11-16: the API key is read and only tested for truth. *)
Definition init_openai (environ_key : option pystr) : script unit :=
  try_except
    (let openai_key := environ_key in
     if negb (opt_str_truthy openai_key)
     then emit (Warning (lit "OpenAI API key not found. Some features may be limited."))
     else ret tt)
    (fun e => emit (Error (lit "Error initializing OpenAI: " ++ message e))).

(** Lines 23-32. *)
Definition sidebar : script unit :=
  within Sidebar
    (emit (Header (lit "Research Options"));;
     emit (Selectbox (lit "Select AI Model") model_options);;
     emit (Slider (lit "Temperature"));;
     emit (Slider (lit "Max Tokens"));;
     emit (Markdown (lit "---"));;
     emit (Markdown (lit "### About"));;
     emit (Markdown (lit "This tool performs deep research using OpenAI models."));;
     emit (Markdown (lit "Data is retrieved from custom knowledge bases."))).

(** The default value of the date range (lines 46-47): from
    [datetime(2000, 1, 1)] to the clock's reading. *)
Definition range_start : datetime := mkDatetime 2000 1 1 0 0 0 0.

(** Whether the date input takes that value.  Its lower bound is
    1990-01-01 and its upper bound the clock's date plus ten years: the
    call raises under a clock that reads a year before 1980 or after
    9989. *)
Definition date_range_accepted (range_now : datetime) : bool :=
  match date_input_error range_start range_now with
  | Some _ => false
  | None => true
  end.

(** Lines 38-47.  The call of the date input is in no [try]: what it
    raises ends the run. *)
Definition advanced_options (range_now : datetime) : script unit :=
  within (Expander (lit "Advanced Options"))
    (emit (SelectSlider (lit "Search Depth") depth_options);;
     emit (Checkbox (lit "Include Citations"));;
     columns
       (emit (Multiselect (lit "Limit to Domains") domain_options))
       (date_input (lit "Date Range") range_start range_now)).

(** Lines 80-83: one collapsible block per finding. *)
Fixpoint render_findings (idx : nat) (fs : list Finding.t) : script unit :=
  match fs with
  | [] => ret tt
  | finding :: rest =>
      guarded (CallExpander idx);;
      within
        (Expander (Finding.title finding ++ lit " (Relevance: "
                   ++ float_repr (Finding.relevance finding) ++ lit ")"))
        (guarded (CallMarkdown idx);;
         emit (Markdown (Finding.content finding));;
         guarded (CallCaption idx);;
         emit (Caption (lit "Source: " ++ Finding.source finding)));;
      render_findings (S idx) rest
  end.

(** Lines 55-93: the body of the [try] and its handler. *)
Definition research_body (w : widgets) (now : datetime) (t : trigger)
  : script unit :=
  session_set "results" (build_results w now);;
  guarded CallSuccess;;
  emit (Success (lit "Research complete!"));;
  results <- session_get "results";;
  render_findings 0 (ResearchResult.findings results);;
  results <- session_get "results";;
  guarded CallDumps;;
  let data := Json.dumps 2 (ResearchResult.to_dict results) in
  guarded CallDownloadButton;;
  emit (DownloadButton (lit "Export Results as JSON") data
          (lit "research_results.json") (lit "application/json"));;
  if export_clicked t
  then guarded CallBalloons;; emit Balloons
  else ret tt.

Definition research_handler (e : exc) : script unit :=
  emit (Error (lit "Error during research: " ++ message e)).

(** Lines 49-93. *)
Definition start_research (w : widgets) (now : datetime) (t : trigger)
  : script unit :=
  emit (Button (lit "Start Research"));;
  if start_clicked t then
    if negb (str_truthy (query w)) then
      emit (Warning (lit "Please enter a research query."))
    else
      spinner (lit "Researching...")
        (try_except (research_body w now t) research_handler)
  else ret tt.

(** The whole script, top to bottom.  The clock is read twice:
    [range_now] for the date range (line 47), [now] for the timestamp
    (line 59). *)
Definition main (environ_key : option pystr) (w : widgets)
    (range_now now : datetime) (t : trigger) : script unit :=
  emit (PageConfig (lit "XII-OS Deep Research") (lit "wide"));;
  init_openai environ_key;;
  emit (Title (lit "XII-OS Deep Research"));;
  emit (Markdown (lit "Powered by OpenAI and Streamlit"));;
  sidebar;;
  emit (TextArea (lit "Enter your research query:"));;
  advanced_options range_now;;
  start_research w now t;;
  emit (Markdown (lit "---"));;
  emit (Markdown (lit "XII-OS Deep Research | Tennis Tiebreaker System")).

(** A click on the submit button comes from a page that shows the
    button: an earlier run of the session went past the date input
    (line 46).  The clock of a session does not go back, and it is
    taken not to reach the year 9990: so in a run that this click
    starts, the date input accepts the clock.  A run that no click on
    the submit button started, the first load of the page among them,
    can meet any clock. *)
Definition click_on_rendered_form (range_now : datetime) (t : trigger)
  : Prop :=
  start_clicked t = true -> date_range_accepted range_now = true.

(** One run of the script: what the environment and the browser give it,
    and how the guarded calls behave. *)
Record request : Type := mkRequest {
  environ_key : option pystr;
  inputs : widgets;
  range_now : datetime;
  now : datetime;
  click : trigger;
  plan : faults;
  click_follows_form : click_on_rendered_form range_now click }.

Definition run (req : request) (ss : gmap string ResearchResult.t)
  : outcome unit * page :=
  main (environ_key req) (inputs req) (range_now req) (now req) (click req)
    (plan req) (mkPage ss []).

(** The same run with other widget values, or another value of the
    API key variable. *)
Definition with_inputs (w : widgets) (req : request) : request :=
  mkRequest (environ_key req) w (range_now req) (now req) (click req)
    (plan req) (click_follows_form req).

Definition with_environ_key (k : option pystr) (req : request) : request :=
  mkRequest k (inputs req) (range_now req) (now req) (click req)
    (plan req) (click_follows_form req).

End DeepResearch.

Import DeepResearch.

(** ** Observations on a run *)

(** The result held in the page state, if any. *)
Definition stored (ss : gmap string ResearchResult.t)
  : option ResearchResult.t := ss !! "results".

Definition page_after (req : request) (ss : gmap string ResearchResult.t)
  : page := snd (run req ss).

(** The page as a two-state machine over the session state. *)
Inductive page_state : Type := Idle | ResultShown.

Definition state_of (ss : gmap string ResearchResult.t) : page_state :=
  match stored ss with
  | Some _ => ResultShown
  | None => Idle
  end.

(** An action in the page reruns the script on the session state. *)
Definition step (ss : gmap string ResearchResult.t) (req : request)
  : gmap string ResearchResult.t := session_state (page_after req ss).

Definition steps (ss : gmap string ResearchResult.t) (reqs : list request)
  : gmap string ResearchResult.t := fold_left step reqs ss.

(** A reload of the page opens a new session. *)
Definition reload : gmap string ResearchResult.t := ∅.

(** Elements that only a built result puts on the page. *)
Definition shows_result (el : element) : bool :=
  match el with
  | Success _ | DownloadButton _ _ _ _ | Balloons => true
  | _ => false
  end.

(** [str.isspace] on one character. *)
Definition is_space (c : N) : bool :=
  ((9 <=? c) && (c <=? 13)) || ((28 <=? c) && (c <=? 32))
  || (c =? 0x85) || (c =? 0xA0) || (c =? 0x1680)
  || ((0x2000 <=? c) && (c <=? 0x200A))
  || (c =? 0x2028) || (c =? 0x2029) || (c =? 0x202F) || (c =? 0x205F)
  || (c =? 0x3000).

(** Empty, or made of whitespace only. *)
Definition is_blank (s : pystr) : bool := forallb is_space s.

(** The number two digit characters spell. *)
Definition two_digits (a b : N) : N := 10 * (a - 48) + (b - 48).

(** The extended ISO 8601 format of a local date and time,
    [YYYY-MM-DDThh:mm:ss] with an optional decimal fraction. *)
Definition is_iso8601 (s : pystr) : bool :=
  match s with
  | y1 :: y2 :: y3 :: y4 :: d1 :: m1 :: m2 :: d2 :: a1 :: a2 :: sep
      :: h1 :: h2 :: c1 :: n1 :: n2 :: c2 :: s1 :: s2 :: frac =>
      forallb Json.is_digit
        [y1; y2; y3; y4; m1; m2; a1; a2; h1; h2; n1; n2; s1; s2]
      && (d1 =? 45) && (d2 =? 45) && (sep =? 84) && (c1 =? 58) && (c2 =? 58)
      && (1 <=? two_digits m1 m2) && (two_digits m1 m2 <=? 12)
      && (1 <=? two_digits a1 a2) && (two_digits a1 a2 <=? 31)
      && (two_digits h1 h2 <? 24) && (two_digits n1 n2 <? 60)
      && (two_digits s1 s2 <? 60)
      && match frac with
         | [] => true
         | [_] => false
         | dot :: ds => (dot =? 46) && forallb Json.is_digit ds
         end
  | _ => false
  end.

(** A template for expected JSON text: the apostrophes of the template
    stand for the double quotes of the text. *)
Definition json_text (s : string) : pystr :=
  map (fun c => if c =? 39 then 34 else c) (lit s).

(** The text expected of the export, around the encoded query, model
    and timestamp. *)
Definition export_text (Q M T : pystr) : pystr :=
  json_text "{
  'query': " ++ Q ++ json_text ",
  'model': " ++ M ++ json_text ",
  'timestamp': " ++ T ++ json_text ",
  'findings': [
    {
      'title': 'Tennis Tiebreaker Regulations',
      'content': 'The Big 12 Conference employs a specific tiebreaker system in tennis matches. When two players are tied at 6-6 in a set, a tiebreaker game is played to determine the winner of the set. The first player to reach at least 7 points with a margin of 2 points wins the tiebreaker.',
      'relevance': 0.95,
      'source': 'Big 12 Tennis Rulebook'
    },
    {
      'title': 'Match Statistics Analysis',
      'content': 'According to recent match statistics, tiebreakers occur in approximately 22% of Big 12 tennis sets. Teams with higher first-serve percentages tend to win 67% of tiebreakers, suggesting the importance of serve performance in these critical moments.',
      'relevance': 0.82,
      'source': 'XII-OS Analytics Database'
    }
  ]
}".

(** A printable ASCII character other than the quote and the
    backslash: a JSON string holds it as it is. *)
Definition is_plain_char (c : N) : bool :=
  (32 <=? c) && (c <=? 126) && negb (c =? 34) && negb (c =? 92).

(** A string between double quotes. *)
Definition quoted (s : pystr) : pystr := 34 :: s ++ [34].

(** The text CPython writes for the result of the query
    "tiebreaker rules" with the model "gpt-4o" at 14:03:09.25 on 17 May
    2024. *)
Definition sample_export : pystr :=
  json_text "{
  'query': 'tiebreaker rules',
  'model': 'gpt-4o',
  'timestamp': '2024-05-17T14:03:09.250000',
  'findings': [
    {
      'title': 'Tennis Tiebreaker Regulations',
      'content': 'The Big 12 Conference employs a specific tiebreaker system in tennis matches. When two players are tied at 6-6 in a set, a tiebreaker game is played to determine the winner of the set. The first player to reach at least 7 points with a margin of 2 points wins the tiebreaker.',
      'relevance': 0.95,
      'source': 'Big 12 Tennis Rulebook'
    },
    {
      'title': 'Match Statistics Analysis',
      'content': 'According to recent match statistics, tiebreakers occur in approximately 22% of Big 12 tennis sets. Teams with higher first-serve percentages tend to win 67% of tiebreakers, suggesting the importance of serve performance in these critical moments.',
      'relevance': 0.82,
      'source': 'XII-OS Analytics Database'
    }
  ]
}".

(** Bounded universal quantification by enumeration. *)
Fixpoint all_from (count : nat) (n : N) (P : N -> bool) : bool :=
  match count with
  | O => true
  | S count' => P n && all_from count' (N.succ n) P
  end.

(** How a piece of the script treats the page: it leaves the session
    state alone however it ends; it cannot raise. *)
Definition keeps_session {A} (m : script A) : Prop :=
  forall f p, session_state (snd (m f p)) = session_state p.

Definition returns {A} (m : script A) : Prop :=
  forall f p, exists a, fst (m f p) = Returned a.

(** A piece whose outcome and additions to the page do not depend on
    what was rendered before it. *)
Definition uniform {A} (m : script A) : Prop :=
  forall f ss r,
    m f (mkPage ss r)
    = (fst (m f (mkPage ss [])),
       mkPage (session_state (snd (m f (mkPage ss []))))
              (r ++ rendered (snd (m f (mkPage ss []))))).

(** A piece that looks at the fault plan only through its values. *)
Definition plan_ext {A} (m : script A) : Prop :=
  forall f g p, (forall c, f c = g c) -> m f p = m g p.

(** The parts of the page. *)
Definition key_warning : element :=
  Warning (lit "OpenAI API key not found. Some features may be limited.").

Definition query_warning : element :=
  Warning (lit "Please enter a research query.").

Definition page_head (k : option pystr) : list element :=
  PageConfig (lit "XII-OS Deep Research") (lit "wide")
  :: (if opt_str_truthy k then [] else [key_warning]).

Definition page_form_until (second_column : list element) : list element :=
  [Title (lit "XII-OS Deep Research");
   Markdown (lit "Powered by OpenAI and Streamlit");
   Sidebar
     [Header (lit "Research Options");
      Selectbox (lit "Select AI Model") model_options;
      Slider (lit "Temperature");
      Slider (lit "Max Tokens");
      Markdown (lit "---");
      Markdown (lit "### About");
      Markdown (lit "This tool performs deep research using OpenAI models.");
      Markdown (lit "Data is retrieved from custom knowledge bases.")];
   TextArea (lit "Enter your research query:");
   Expander (lit "Advanced Options")
     [SelectSlider (lit "Search Depth") depth_options;
      Checkbox (lit "Include Citations");
      Columns [Multiselect (lit "Limit to Domains") domain_options]
              second_column]].

(** The form, and the form as a run leaves it when the date input
    raises: without the date input, and with nothing after it. *)
Definition page_form : list element :=
  page_form_until [DateInput (lit "Date Range")].

Definition page_form_cut : list element := page_form_until [].

Definition start_button : element := Button (lit "Start Research").

Definition page_foot : list element :=
  [Markdown (lit "---");
   Markdown (lit "XII-OS Deep Research | Tennis Tiebreaker System")].

Definition finding_block (f : Finding.t) : element :=
  Expander (Finding.title f ++ lit " (Relevance: "
            ++ float_repr (Finding.relevance f) ++ lit ")")
    [Markdown (Finding.content f);
     Caption (lit "Source: " ++ Finding.source f)].

Definition export_button (r : ResearchResult.t) : element :=
  DownloadButton (lit "Export Results as JSON")
    (Json.dumps 2 (ResearchResult.to_dict r))
    (lit "research_results.json") (lit "application/json").

Definition results_view (r : ResearchResult.t) : list element :=
  Success (lit "Research complete!")
  :: map finding_block (ResearchResult.findings r) ++ [export_button r].

(** An element that, if it is a download button, is the export button
    of [r]. *)
Definition is_export (r : ResearchResult.t) (el : element) : Prop :=
  match el with
  | DownloadButton _ _ _ _ => el = export_button r
  | _ => True
  end.

Definition research_error (e : exc) : element :=
  Error (lit "Error during research: " ++ message e).

(** The guarded calls of the body of the [try], in the order in which
    it makes them, and the first exception a plan raises among them. *)
Definition body_calls (t : trigger) : list call :=
  [CallSuccess; CallExpander 0; CallMarkdown 0; CallCaption 0;
   CallExpander 1; CallMarkdown 1; CallCaption 1; CallDumps;
   CallDownloadButton]
  ++ (if export_clicked t then [CallBalloons] else []).

Fixpoint first_raised (f : faults) (cs : list call) : option exc :=
  match cs with
  | [] => None
  | c :: cs' =>
      match f c with
      | Some e => Some e
      | None => first_raised f cs'
      end
  end.

(** A submission that is turned away: the run ends normally with the
    warning on the page, the session state as it was, and nothing of a
    result rendered. *)
Definition submit_rejected (req : request)
    (ss : gmap string ResearchResult.t) : Prop :=
  fst (run req ss) = Returned tt
  /\ In query_warning (rendered (page_after req ss))
  /\ step ss req = ss
  /\ forallb (fun el => negb (shows_result el))
       (rendered (page_after req ss)) = true.

(** Sample values. *)
Definition sample_now : datetime := mkDatetime 2024 5 17 14 3 9 250000.

Definition sample_inputs (q : pystr) : widgets :=
  mkWidgets gpt_4o (float_of_decimal false 7 (-1)) 1500 q Basic true [] [].

Definition sample_request (q : pystr) (t : trigger) : request :=
  mkRequest None (sample_inputs q) sample_now sample_now t no_faults
    (fun _ => eq_refl).

(** The first load of the page under a clock that was never set. *)
Definition unset_clock : datetime := mkDatetime 1970 1 1 0 0 0 0.

Definition first_load (k : option pystr) (clock : datetime) : request :=
  mkRequest k (sample_inputs []) clock clock NoClick no_faults
    (fun H => False_ind _ (Bool.diff_false_true H)).

(** A plan in which rendering the body of the second finding fails. *)
Definition sample_exc : exc := Exception (lit "widget failure").

Definition sample_faults : faults :=
  fun c =>
    match c with
    | CallMarkdown 1 => Some sample_exc
    | _ => None
    end.

Definition faulty_request : request :=
  mkRequest None (sample_inputs (lit "serve statistics")) sample_now
    sample_now StartResearch sample_faults (fun _ => eq_refl).

Definition sample_result : ResearchResult.t :=
  build_results (sample_inputs (lit "old query")) sample_now.

(** The elements the body of the [try] renders before the export
    button. *)
Definition body_prefix_element (el : element) : Prop :=
  match el with
  | Success _ | Expander _ _ => True
  | _ => False
  end.

(** The first guarded call of a list that the plan makes raise, with
    what it raises. *)
Fixpoint first_failing (f : faults) (cs : list call) : option (call * exc) :=
  match cs with
  | [] => None
  | c :: cs' =>
      match f c with
      | Some e => Some (c, e)
      | None => first_failing f cs'
      end
  end.

(** The block of a finding while its body is rendered. *)
Definition open_block (f : Finding.t) (body : list element) : element :=
  Expander (Finding.title f ++ lit " (Relevance: "
            ++ float_repr (Finding.relevance f) ++ lit ")") body.

(** What the loop over the findings has rendered when the call [c]
    fails: the blocks of the findings before the one at which it fails,
    and the open block of that one, if [c] is in its body. *)
Fixpoint blocks_before (c : call) (idx : nat) (fs : list Finding.t)
  : list element :=
  match fs with
  | [] => []
  | x :: rest =>
      let go_on := finding_block x :: blocks_before c (S idx) rest in
      match c with
      | CallExpander i => if Nat.eqb i idx then [] else go_on
      | CallMarkdown i => if Nat.eqb i idx then [open_block x []] else go_on
      | CallCaption i =>
          if Nat.eqb i idx
          then [open_block x [Markdown (Finding.content x)]]
          else go_on
      | _ => go_on
      end
  end.

(** The part of the view of a result that is on the page when the call
    [c] of the body of the [try] fails. *)
Definition view_before (r : ResearchResult.t) (c : call) : list element :=
  match c with
  | CallSuccess => []
  | CallBalloons => results_view r
  | _ =>
      Success (lit "Research complete!")
      :: blocks_before c 0 (ResearchResult.findings r)
  end.

(** What a run renders between the submit button and the foot. *)
Inductive page_middle (req : request) : list element -> Prop :=
  | MiddleIdle :
      start_clicked (click req) = false -> page_middle req []
  | MiddleRejected :
      start_clicked (click req) = true -> query (inputs req) = [] ->
      page_middle req [query_warning]
  | MiddleResult :
      start_clicked (click req) = true -> query (inputs req) <> [] ->
      first_failing (plan req) (body_calls (click req)) = None ->
      page_middle req (results_view (build_results (inputs req) (now req)))
  | MiddleError c e :
      start_clicked (click req) = true -> query (inputs req) <> [] ->
      first_failing (plan req) (body_calls (click req)) = Some (c, e) ->
      page_middle req
        (view_before (build_results (inputs req) (now req)) c
         ++ [research_error e]).

(** A run that stores a result: the submit button was clicked and the
    query is not empty. *)
Definition is_submission (req : request) : bool :=
  start_clicked (click req) && str_truthy (query (inputs req)).

Fixpoint last_submission (reqs : list request) : option request :=
  match reqs with
  | [] => None
  | req :: rest =>
      match last_submission rest with
      | Some r => Some r
      | None => if is_submission req then Some req else None
      end
  end.

(** A line feed or a printable ASCII character. *)
Definition is_ascii_print (c : N) : bool :=
  (c =? 10) || ((32 <=? c) && (c <=? 126)).

Arguments lit : simpl never.
Arguments float_repr : simpl never.
Arguments float_of_decimal : simpl never.
Arguments isoformat : simpl never.
Arguments Json.dumps : simpl never.

(** * Properties *)

(** ** How the pieces of the script treat the page *)

Section Frame.

Lemma keeps_ret {A} (a : A) : keeps_session (ret a).
Proof. intros f p. reflexivity. Qed.

Lemma keeps_emit el : keeps_session (emit el).
Proof. intros f p. reflexivity. Qed.

Lemma keeps_raise {A} e : keeps_session (raise (A := A) e).
Proof. intros f p. reflexivity. Qed.

Lemma keeps_guarded c : keeps_session (guarded c).
Proof. intros f p. unfold guarded. destruct (f c); reflexivity. Qed.

Lemma keeps_session_get k : keeps_session (session_get k).
Proof.
  intros f p. unfold session_get.
  destruct (session_state p !! k); reflexivity.
Qed.

Lemma keeps_bind {A B} (m : script A) (k : A -> script B) :
  keeps_session m -> (forall a, keeps_session (k a)) ->
  keeps_session (bind m k).
Proof.
  intros Hm Hk f p. unfold bind. specialize (Hm f p).
  destruct (m f p) as [[a | e] p']; simpl in *.
  - rewrite Hk. exact Hm.
  - exact Hm.
Qed.

Lemma keeps_try {A} (m : script A) (h : exc -> script A) :
  keeps_session m -> (forall e, keeps_session (h e)) ->
  keeps_session (try_except m h).
Proof.
  intros Hm Hh f p. unfold try_except. specialize (Hm f p).
  destruct (m f p) as [[a | e] p']; simpl in *.
  - exact Hm.
  - rewrite Hh. exact Hm.
Qed.

Lemma keeps_within {A} mk (m : script A) :
  keeps_session m -> keeps_session (within mk m).
Proof.
  intros Hm f p. unfold within.
  specialize (Hm f (mkPage (session_state p) [])).
  destruct (m f _) as [r p']; simpl in *. exact Hm.
Qed.

Lemma keeps_columns {A} (l : script unit) (r : script A) :
  keeps_session l -> keeps_session r -> keeps_session (columns l r).
Proof.
  intros Hl Hr f p. unfold columns.
  specialize (Hl f (mkPage (session_state p) [])).
  destruct (l f _) as [[a | e] p1]; simpl in *; [|exact Hl].
  specialize (Hr f (mkPage (session_state p1) [])).
  destruct (r f _) as [o p2]; simpl in *. congruence.
Qed.

Lemma keeps_date_input label first last :
  keeps_session (date_input label first last).
Proof.
  unfold date_input. destruct (date_input_error first last);
    [apply keeps_raise | apply keeps_emit].
Qed.

Lemma returns_ret {A} (a : A) : returns (ret a).
Proof. intros f p. exists a. reflexivity. Qed.

Lemma returns_emit el : returns (emit el).
Proof. intros f p. exists tt. reflexivity. Qed.

Lemma returns_session_set k v : returns (session_set k v).
Proof. intros f p. exists tt. reflexivity. Qed.

Lemma returns_bind {A B} (m : script A) (k : A -> script B) :
  returns m -> (forall a, returns (k a)) -> returns (bind m k).
Proof.
  intros Hm Hk f p. unfold bind. destruct (Hm f p) as [a Ha].
  destruct (m f p) as [[a' | e] p']; simpl in *; [|discriminate].
  apply Hk.
Qed.

Lemma returns_try {A} (m : script A) (h : exc -> script A) :
  (forall e, returns (h e)) -> returns (try_except m h).
Proof.
  intros Hh f p. unfold try_except.
  destruct (m f p) as [[a | e] p']; simpl.
  - exists a. reflexivity.
  - apply Hh.
Qed.

Lemma returns_within {A} mk (m : script A) :
  returns m -> returns (within mk m).
Proof.
  intros Hm f p. unfold within.
  destruct (Hm f (mkPage (session_state p) [])) as [a Ha].
  destruct (m f _) as [r p']; simpl in *. exists a. exact Ha.
Qed.

Lemma uniform_ret {A} (a : A) : uniform (ret a).
Proof. intros f ss r. simpl. rewrite app_nil_r. reflexivity. Qed.

Lemma uniform_emit el : uniform (emit el).
Proof. intros f ss r. reflexivity. Qed.

Lemma uniform_raise {A} e : uniform (raise (A := A) e).
Proof. intros f ss r. simpl. rewrite app_nil_r. reflexivity. Qed.

Lemma uniform_guarded c : uniform (guarded c).
Proof.
  intros f ss r. unfold guarded.
  destruct (f c); simpl; rewrite app_nil_r; reflexivity.
Qed.

Lemma uniform_session_set k v : uniform (session_set k v).
Proof. intros f ss r. simpl. rewrite app_nil_r. reflexivity. Qed.

Lemma uniform_session_get k : uniform (session_get k).
Proof.
  intros f ss r. unfold session_get. simpl.
  destruct (ss !! k); simpl; rewrite app_nil_r; reflexivity.
Qed.

Lemma uniform_bind {A B} (m : script A) (k : A -> script B) :
  uniform m -> (forall a, uniform (k a)) -> uniform (bind m k).
Proof.
  intros Hm Hk f ss r. unfold bind. rewrite (Hm f ss r).
  destruct (m f (mkPage ss [])) as [[a | e] [ss1 r1]]; simpl.
  - rewrite (Hk a f ss1 (r ++ r1)), (Hk a f ss1 r1). simpl.
    rewrite app_assoc. reflexivity.
  - reflexivity.
Qed.

Lemma uniform_try {A} (m : script A) (h : exc -> script A) :
  uniform m -> (forall e, uniform (h e)) -> uniform (try_except m h).
Proof.
  intros Hm Hh f ss r. unfold try_except. rewrite (Hm f ss r).
  destruct (m f (mkPage ss [])) as [[a | e] [ss1 r1]]; simpl.
  - reflexivity.
  - rewrite (Hh e f ss1 (r ++ r1)), (Hh e f ss1 r1). simpl.
    rewrite app_assoc. reflexivity.
Qed.

Lemma uniform_within {A} mk (m : script A) : uniform (within mk m).
Proof.
  intros f ss r. unfold within. simpl.
  destruct (m f (mkPage ss [])) as [o [ss1 r1]]; reflexivity.
Qed.

Lemma uniform_columns {A} (l : script unit) (r : script A) :
  uniform (columns l r).
Proof.
  intros f ss r0. unfold columns. simpl.
  destruct (l f (mkPage ss [])) as [[a | e] [ss1 r1]]; simpl; [|reflexivity].
  destruct (r f (mkPage ss1 [])) as [o [ss2 r2]]; reflexivity.
Qed.

Lemma uniform_date_input label first last :
  uniform (date_input label first last).
Proof.
  unfold date_input. destruct (date_input_error first last);
    [apply uniform_raise | apply uniform_emit].
Qed.

Lemma ext_ret {A} (a : A) : plan_ext (ret a).
Proof. intros f g p H. reflexivity. Qed.

Lemma ext_emit el : plan_ext (emit el).
Proof. intros f g p H. reflexivity. Qed.

Lemma ext_guarded c : plan_ext (guarded c).
Proof. intros f g p H. unfold guarded. rewrite H. reflexivity. Qed.

Lemma ext_session_set k v : plan_ext (session_set k v).
Proof. intros f g p H. reflexivity. Qed.

Lemma ext_session_get k : plan_ext (session_get k).
Proof. intros f g p H. reflexivity. Qed.

Lemma ext_bind {A B} (m : script A) (k : A -> script B) :
  plan_ext m -> (forall a, plan_ext (k a)) -> plan_ext (bind m k).
Proof.
  intros Hm Hk f g p H. unfold bind. rewrite (Hm f g p H).
  destruct (m g p) as [[a | e] p']; [apply Hk; exact H | reflexivity].
Qed.

Lemma ext_try {A} (m : script A) (h : exc -> script A) :
  plan_ext m -> (forall e, plan_ext (h e)) -> plan_ext (try_except m h).
Proof.
  intros Hm Hh f g p H. unfold try_except. rewrite (Hm f g p H).
  destruct (m g p) as [[a | e] p']; [reflexivity | apply Hh; exact H].
Qed.

Lemma ext_within {A} mk (m : script A) :
  plan_ext m -> plan_ext (within mk m).
Proof.
  intros Hm f g p H. unfold within. rewrite (Hm f g _ H). reflexivity.
Qed.

End Frame.

Create HintDb page_frame.
#[export] Hint Resolve keeps_raise keeps_columns keeps_date_input
  uniform_raise uniform_columns uniform_date_input : page_frame.
#[export] Hint Resolve keeps_ret keeps_emit keeps_guarded keeps_session_get
  keeps_bind keeps_try keeps_within : page_frame.
#[export] Hint Resolve returns_ret returns_emit returns_session_set
  returns_bind returns_try returns_within : page_frame.

#[export] Hint Resolve uniform_ret uniform_emit uniform_guarded
  uniform_session_set uniform_session_get uniform_bind uniform_try
  uniform_within : page_frame.
#[export] Hint Resolve ext_ret ext_emit ext_guarded ext_session_set
  ext_session_get ext_bind ext_try ext_within : page_frame.

Ltac frame := unfold spinner; eauto 40 with page_frame.

(** ** The script's effect on the session state *)

Lemma keeps_render_findings fs : forall idx, keeps_session (render_findings idx fs).
Proof. induction fs as [|x fs IH]; intros idx; cbn [render_findings]; frame. Qed.

Lemma uniform_render_findings fs : forall idx, uniform (render_findings idx fs).
Proof. induction fs as [|x fs IH]; intros idx; cbn [render_findings]; frame. Qed.

Lemma ext_render_findings fs : forall idx, plan_ext (render_findings idx fs).
Proof. induction fs as [|x fs IH]; intros idx; cbn [render_findings]; frame. Qed.

#[export] Hint Resolve keeps_render_findings uniform_render_findings
  ext_render_findings : page_frame.

Lemma keeps_init_openai k : keeps_session (init_openai k).
Proof. unfold init_openai. destruct (negb _); frame. Qed.

Lemma returns_init_openai k : returns (init_openai k).
Proof. unfold init_openai. frame. Qed.

Lemma keeps_sidebar : keeps_session sidebar.
Proof. unfold sidebar. frame. Qed.

Lemma returns_sidebar : returns sidebar.
Proof. unfold sidebar. frame. Qed.

Lemma keeps_advanced_options t : keeps_session (advanced_options t).
Proof. unfold advanced_options. frame. Qed.

#[export] Hint Resolve keeps_init_openai returns_init_openai keeps_sidebar
  returns_sidebar keeps_advanced_options : page_frame.

(** The body of the [try] stores the result first; nothing after that
    touches the session state, whether it returns or raises. *)
Lemma research_body_session w now t f p :
  session_state (snd (research_body w now t f p))
  = <["results" := build_results w now]> (session_state p).
Proof.
  unfold research_body.
  match goal with
  | |- context [bind (session_set ?k ?v) ?rest] =>
      assert (Hrest : keeps_session (rest tt))
  end.
  { destruct (export_clicked t); frame. }
  unfold bind at 1. simpl. rewrite Hrest. reflexivity.
Qed.

Lemma start_research_session w now t f p :
  session_state (snd (start_research w now t f p))
  = if start_clicked t && str_truthy (query w)
    then <["results" := build_results w now]> (session_state p)
    else session_state p.
Proof.
  unfold start_research, bind at 1. simpl.
  destruct (start_clicked t); simpl; [|reflexivity].
  destruct (str_truthy (query w)); simpl; [|reflexivity].
  unfold spinner, try_except.
  pose proof (research_body_session w now t f
                (mkPage (session_state p) (rendered p ++ [Button (lit "Start Research")]))) as H.
  destruct (research_body _ _ _ _ _) as [[a | e] p']; simpl in *; exact H.
Qed.

Lemma returns_start_research w now t : returns (start_research w now t).
Proof.
  unfold start_research, research_handler.
  destruct (start_clicked t), (negb (str_truthy (query w))); frame.
Qed.

#[export] Hint Resolve returns_start_research : page_frame.

(** ** What a run renders *)

Lemma uniform_research_body w now t : uniform (research_body w now t).
Proof. unfold research_body. destruct (export_clicked t); frame. Qed.

Lemma ext_research_body w now t : plan_ext (research_body w now t).
Proof. unfold research_body. destruct (export_clicked t); frame. Qed.

Lemma uniform_start_research w now t : uniform (start_research w now t).
Proof.
  pose proof (uniform_research_body w now t).
  unfold start_research, research_handler.
  destruct (start_clicked t), (negb (str_truthy (query w))); frame.
Qed.

Lemma ext_start_research w now t : plan_ext (start_research w now t).
Proof.
  pose proof (ext_research_body w now t).
  unfold start_research, research_handler.
  destruct (start_clicked t), (negb (str_truthy (query w))); frame.
Qed.

Lemma uniform_init_openai k : uniform (init_openai k).
Proof. unfold init_openai. destruct (negb _); frame. Qed.

Lemma uniform_sidebar : uniform sidebar.
Proof. unfold sidebar. frame. Qed.

Lemma uniform_advanced_options t : uniform (advanced_options t).
Proof. unfold advanced_options. frame. Qed.

#[export] Hint Resolve uniform_start_research ext_start_research
  uniform_init_openai uniform_sidebar uniform_advanced_options : page_frame.

(** A run renders the head and the form.  When the date input takes
    the clock's reading, the run goes on with what the submit handler
    adds and the foot, and ends normally, with the session state the
    handler leaves; when it does not, the run ends there, with what the
    date input raises. *)
Lemma main_eq k w rn now t f ss :
  let h := start_research w now t f (mkPage ss []) in
  main k w rn now t f (mkPage ss [])
  = match date_input_error range_start rn with
    | None =>
        (Returned tt,
         mkPage (session_state (snd h))
           (page_head k ++ page_form ++ rendered (snd h) ++ page_foot))
    | Some e => (Raised e, mkPage ss (page_head k ++ page_form_cut))
    end.
Proof.
  unfold main. simpl.
  pose proof (returns_start_research w now t f (mkPage ss [])) as [[] Hret].
  cbv beta iota zeta delta
    [bind emit init_openai try_except ret sidebar advanced_options within
     columns date_input raise
     session_state rendered opt_str_truthy str_truthy negb].
  destruct (date_input_error range_start rn) as [e|];
    destruct k as [[|c k]|]; try reflexivity;
    rewrite uniform_start_research;
    destruct (start_research w now t f _) as [[[]|e] [ss1 r1]];
    try discriminate; simpl; rewrite <- ?app_assoc; reflexivity.
Qed.

Lemma run_eq req ss :
  let h := start_research (inputs req) (now req) (click req) (plan req)
             (mkPage ss []) in
  run req ss
  = match date_input_error range_start (range_now req) with
    | None =>
        (Returned tt,
         mkPage (session_state (snd h))
           (page_head (environ_key req) ++ page_form ++ rendered (snd h)
            ++ page_foot))
    | Some e =>
        (Raised e, mkPage ss (page_head (environ_key req) ++ page_form_cut))
    end.
Proof. apply main_eq. Qed.

(** The script stops at the date input under a clock that the date
    input rejects, whatever click started the run: nothing is stored,
    and the page has no submit button. *)
Remark main_stops_at_rejected_clock k w rn now t f ss :
  date_range_accepted rn = false ->
  exists e,
    main k w rn now t f (mkPage ss [])
    = (Raised e, mkPage ss (page_head k ++ page_form_cut)).
Proof.
  unfold date_range_accepted. intros Hr. rewrite main_eq.
  destruct (date_input_error range_start rn) as [e|]; [eauto | discriminate].
Qed.

Lemma accepted_no_error t :
  date_range_accepted t = true -> date_input_error range_start t = None.
Proof.
  unfold date_range_accepted.
  destruct (date_input_error range_start t); [discriminate | reflexivity].
Qed.

Lemma rejected_error t :
  date_range_accepted t = false ->
  exists e, date_input_error range_start t = Some e.
Proof.
  unfold date_range_accepted.
  destruct (date_input_error range_start t) as [e|]; [eauto | discriminate].
Qed.

Lemma run_accepted req ss :
  date_range_accepted (range_now req) = true ->
  let h := start_research (inputs req) (now req) (click req) (plan req)
             (mkPage ss []) in
  run req ss
  = (Returned tt,
     mkPage (session_state (snd h))
       (page_head (environ_key req) ++ page_form ++ rendered (snd h)
        ++ page_foot)).
Proof. intros Ha. rewrite run_eq, (accepted_no_error _ Ha). reflexivity. Qed.

Lemma run_rejected req ss :
  date_range_accepted (range_now req) = false ->
  exists e,
    run req ss
    = (Raised e, mkPage ss (page_head (environ_key req) ++ page_form_cut)).
Proof.
  intros Hr. destruct (rejected_error _ Hr) as [e He].
  exists e. rewrite run_eq, He. reflexivity.
Qed.

(** In a run started by the submit button the date input accepts the
    clock. *)
Lemma submit_accepted req :
  start_clicked (click req) = true ->
  date_range_accepted (range_now req) = true.
Proof. apply (click_follows_form req). Qed.

(** One run changes the session state only by a submission with a query
    that is not empty, which stores the result built from the inputs. *)
Lemma step_eq ss req :
  step ss req
  = if start_clicked (click req) && str_truthy (query (inputs req))
    then <["results" := build_results (inputs req) (now req)]> ss
    else ss.
Proof.
  unfold step, page_after.
  destruct (date_range_accepted (range_now req)) eqn:Ha.
  - rewrite (run_accepted req ss Ha). cbn [snd session_state].
    apply start_research_session.
  - destruct (run_rejected req ss Ha) as [e ->]. cbn [snd session_state].
    destruct (start_clicked (click req)) eqn:Hc; [|reflexivity].
    rewrite (submit_accepted req Hc) in Ha. discriminate.
Qed.

Lemma render_findings_ok fs : forall idx ss r,
  render_findings idx fs no_faults (mkPage ss r)
  = (Returned tt, mkPage ss (r ++ map finding_block fs)).
Proof.
  induction fs as [|x fs IH]; intros idx ss r; cbn [render_findings map].
  - simpl. rewrite app_nil_r. reflexivity.
  - cbv beta iota zeta delta
      [bind guarded no_faults within emit session_state rendered].
    fold no_faults. rewrite IH. simpl. rewrite <- app_assoc. reflexivity.
Qed.

Lemma research_body_ok w now f ss :
  (forall c, f c = None) ->
  research_body w now StartResearch f (mkPage ss [])
  = (Returned tt,
     mkPage (<["results" := build_results w now]> ss)
       (results_view (build_results w now))).
Proof.
  intros H. rewrite (ext_research_body w now _ f no_faults _ H).
  unfold research_body.
  cbv beta iota zeta delta
    [bind session_set guarded no_faults emit session_get export_clicked ret
     session_state rendered].
  rewrite lookup_insert_eq. fold no_faults.
  rewrite render_findings_ok. cbv beta iota zeta.
  rewrite lookup_insert_eq. reflexivity.
Qed.

(** The submit handler, case by case. *)
Lemma start_research_idle w now t f ss :
  start_clicked t = false ->
  start_research w now t f (mkPage ss [])
  = (Returned tt, mkPage ss [start_button]).
Proof. intros H. unfold start_research, bind. simpl. rewrite H. reflexivity. Qed.

Lemma start_research_empty w now t f ss :
  start_clicked t = true -> query w = [] ->
  start_research w now t f (mkPage ss [])
  = (Returned tt, mkPage ss [start_button; query_warning]).
Proof.
  intros H Hq. unfold start_research, bind. simpl. rewrite H, Hq. reflexivity.
Qed.

Lemma start_research_ok w now t f ss :
  start_clicked t = true -> query w <> [] -> (forall c, f c = None) ->
  start_research w now t f (mkPage ss [])
  = (Returned tt,
     mkPage (<["results" := build_results w now]> ss)
       (start_button :: results_view (build_results w now))).
Proof.
  intros H Hq Hf. destruct t; try discriminate.
  unfold start_research, bind. simpl.
  destruct (query w) as [|c q] eqn:E; [congruence|]. simpl.
  unfold spinner, try_except. rewrite uniform_research_body.
  rewrite (research_body_ok w now f ss Hf). reflexivity.
Qed.

(** When the body of the [try] raises, the handler puts the error after
    what was rendered until then, and the handler returns. *)
Lemma start_research_raised w now t f ss e :
  start_clicked t = true -> query w <> [] ->
  fst (research_body w now t f (mkPage ss [])) = Raised e ->
  exists partial,
    start_research w now t f (mkPage ss [])
    = (Returned tt,
       mkPage (<["results" := build_results w now]> ss)
         (start_button :: partial ++ [research_error e])).
Proof.
  intros H Hq He.
  unfold start_research, bind. simpl. rewrite H.
  destruct (query w) as [|c q] eqn:E; [congruence|]. simpl.
  unfold spinner, try_except. rewrite uniform_research_body.
  pose proof (research_body_session w now t f (mkPage ss [])) as Hs.
  destruct (research_body w now t f _) as [[[]|e'] [ss1 r1]];
    simpl in *; [discriminate|].
  injection He as ->. subst ss1. exists r1. reflexivity.
Qed.

(** Running a sequence whose head is known. *)
Lemma bind_assoc {A B C} (m : script A) (k : A -> script B)
    (h : B -> script C) f p :
  bind (bind m k) h f p = bind m (fun a => bind (k a) h) f p.
Proof. unfold bind. destruct (m f p) as [[a | e] p']; reflexivity. Qed.

Lemma bind_guarded {B} c (k : unit -> script B) f p :
  bind (guarded c) k f p
  = match f c with
    | Some e => (Raised e, p)
    | None => k tt f p
    end.
Proof. unfold bind, guarded. destruct (f c); reflexivity. Qed.

Lemma bind_emit {B} el (k : unit -> script B) f p :
  bind (emit el) k f p
  = k tt f (mkPage (session_state p) (rendered p ++ [el])).
Proof. reflexivity. Qed.

Lemma bind_session_set {B} key v (k : unit -> script B) f p :
  bind (session_set key v) k f p
  = k tt f (mkPage (<[key := v]> (session_state p)) (rendered p)).
Proof. reflexivity. Qed.

Lemma bind_session_get {B} key v (k : ResearchResult.t -> script B) f p :
  session_state p !! key = Some v ->
  bind (session_get key) k f p = k v f p.
Proof. intros H. unfold bind, session_get. rewrite H. reflexivity. Qed.

Lemma bind_within {A B} mk (m : script A) (k : A -> script B) f p :
  bind (within mk m) k f p
  = match m f (mkPage (session_state p) []) with
    | (Returned a, p') =>
        k a f (mkPage (session_state p') (rendered p ++ [mk (rendered p')]))
    | (Raised e, p') =>
        (Raised e,
         mkPage (session_state p') (rendered p ++ [mk (rendered p')]))
    end.
Proof.
  unfold bind, within.
  destruct (m f _) as [[a | e] p']; reflexivity.
Qed.

Lemma first_raised_cons f c cs :
  first_raised f (c :: cs)
  = match f c with
    | Some e => Some e
    | None => first_raised f cs
    end.
Proof. reflexivity. Qed.

Ltac flatten := cbv beta; rewrite ?bind_assoc; cbv beta.

Ltac next_call f :=
  flatten; rewrite bind_guarded;
  match goal with
  | |- context [first_raised f (?c :: _)] =>
      rewrite first_raised_cons; destruct (f c) eqn:?; [reflexivity|]
  end; flatten.

(** Whether the body raises, and what, is decided by the plan alone. *)
Lemma research_body_outcome w now t f p :
  fst (research_body w now t f p)
  = match first_raised f (body_calls t) with
    | Some e => Raised e
    | None => Returned tt
    end.
Proof.
  destruct p as [ss r]. unfold research_body, body_calls. cbn [app].
  rewrite bind_session_set. next_call f.
  rewrite bind_emit.
  rewrite (bind_session_get _ (build_results w now))
    by apply lookup_insert_eq.
  cbn [ResearchResult.findings build_results render_findings].
  next_call f.
  rewrite bind_within. next_call f.
  rewrite bind_emit. next_call f.
  unfold emit at 1. cbv beta iota zeta.
  next_call f.
  rewrite bind_within. next_call f.
  rewrite bind_emit. next_call f.
  unfold emit at 1. cbv beta iota zeta.
  unfold ret at 1. unfold bind at 1.
  rewrite (bind_session_get _ (build_results w now))
    by apply lookup_insert_eq.
  next_call f. next_call f. rewrite bind_emit.
  destruct (export_clicked t); cbn [app].
  - next_call f. reflexivity.
  - reflexivity.
Qed.

(** ** The claims *)

Lemma stored_step_submit ss req :
  click req = StartResearch -> query (inputs req) <> [] ->
  stored (step ss req) = Some (build_results (inputs req) (now req)).
Proof.
  intros Hc Hq. rewrite step_eq, Hc.
  destruct (query (inputs req)); [congruence|]. simpl.
  apply lookup_insert_eq.
Qed.

Lemma step_empty_query ss req : query (inputs req) = [] -> step ss req = ss.
Proof. intros Hq. rewrite step_eq, Hq, andb_false_r. reflexivity. Qed.

Lemma rendered_run req ss :
  date_range_accepted (range_now req) = true ->
  rendered (page_after req ss)
  = page_head (environ_key req) ++ page_form
    ++ rendered (snd (start_research (inputs req) (now req) (click req)
                        (plan req) (mkPage ss [])))
    ++ page_foot.
Proof.
  intros Ha. unfold page_after. rewrite (run_accepted req ss Ha). reflexivity.
Qed.

Lemma rendered_rejected req ss :
  date_range_accepted (range_now req) = false ->
  rendered (page_after req ss) = page_head (environ_key req) ++ page_form_cut.
Proof.
  intros Hr. unfold page_after.
  destruct (run_rejected req ss Hr) as [e ->]. reflexivity.
Qed.

Lemma run_returns req ss :
  date_range_accepted (range_now req) = true -> fst (run req ss) = Returned tt.
Proof. intros Ha. rewrite (run_accepted req ss Ha). reflexivity. Qed.

Lemma click_accepted req :
  click req = StartResearch -> date_range_accepted (range_now req) = true.
Proof. intros Hc. apply submit_accepted. rewrite Hc. reflexivity. Qed.

(** C1, as the code has it: a submission with the empty query produces
    the warning, ends normally, stores nothing and renders nothing of a
    result. *)
Theorem empty_query_is_rejected (req : request)
    (ss : gmap string ResearchResult.t) :
  click req = StartResearch -> query (inputs req) = [] ->
  submit_rejected req ss.
Proof.
  intros Hc Hq. pose proof (click_accepted req Hc) as Ha.
  unfold submit_rejected.
  rewrite (rendered_run req ss Ha).
  rewrite start_research_empty by (rewrite ?Hc; done).
  repeat split.
  - apply run_returns, Ha.
  - rewrite !in_app_iff. right. right. left. simpl. auto.
  - apply step_empty_query, Hq.
  - unfold page_head. destruct (opt_str_truthy _); reflexivity.
Qed.

Lemma empty_query_is_rejected_witness :
  submit_rejected (sample_request [] StartResearch) {["results" := sample_result]}.
Proof. apply empty_query_is_rejected; reflexivity. Defined.

(** C1 as stated fails: a query of one space is whitespace only, and
    its submission is not turned away (a result is stored). *)
Lemma whitespace_query_counterexample :
  is_blank (query (inputs (sample_request [32] StartResearch))) = true
  /\ click (sample_request [32] StartResearch) = StartResearch
  /\ ~ submit_rejected (sample_request [32] StartResearch) ∅.
Proof.
  split; [reflexivity|]. split; [reflexivity|].
  intros (_ & _ & Hstep & _).
  apply (f_equal stored) in Hstep.
  rewrite stored_step_submit in Hstep by (simpl; congruence).
  discriminate Hstep.
Qed.

(** C2: a submission with a query that is not empty stores a result
    whose findings are exactly the two fixed literals, in their order,
    and whose query is the input unchanged. *)
Theorem submit_builds_result (req : request)
    (ss : gmap string ResearchResult.t) :
  click req = StartResearch -> query (inputs req) <> [] ->
  exists r,
    stored (step ss req) = Some r
    /\ ResearchResult.findings r = [finding_1; finding_2]
    /\ length (ResearchResult.findings r) = 2%nat
    /\ map Finding.title (ResearchResult.findings r)
       = [lit "Tennis Tiebreaker Regulations"; lit "Match Statistics Analysis"]
    /\ ResearchResult.query r = query (inputs req).
Proof.
  intros Hc Hq. exists (build_results (inputs req) (now req)).
  split; [apply stored_step_submit; assumption|].
  repeat split.
Qed.

Lemma submit_builds_result_witness :
  exists r,
    stored (step ∅ (sample_request (lit " a  b ") StartResearch)) = Some r
    /\ ResearchResult.findings r = [finding_1; finding_2]
    /\ length (ResearchResult.findings r) = 2%nat
    /\ map Finding.title (ResearchResult.findings r)
       = [lit "Tennis Tiebreaker Regulations"; lit "Match Statistics Analysis"]
    /\ ResearchResult.query r = lit " a  b ".
Proof.
  apply (submit_builds_result (sample_request (lit " a  b ") StartResearch) ∅);
    [reflexivity | vm_compute; discriminate].
Defined.

(** C3: two runs from one page state that are the same run but for
    the widget values, with the same query and, the clock being the
    run's, the same timestamp: whatever the model, temperature, token
    limit, search depth, citation flag, domains and date range of each,
    they leave results with the same findings.  This holds for every
    click, a submission among them. *)
Theorem cosmetic_controls_do_not_change_findings
    (ss : gmap string ResearchResult.t) (req : request) (q : pystr)
    (m m' : ai_model) (temp temp' : float) (mt mt' : Z) (d d' : depth)
    (c c' : bool) (ds ds' : list domain) (dr dr' : list datetime) :
  ResearchResult.findings
    <$> stored (step ss (with_inputs (mkWidgets m temp mt q d c ds dr) req))
  = ResearchResult.findings
    <$> stored (step ss (with_inputs (mkWidgets m' temp' mt' q d' c' ds' dr')
                           req)).
Proof.
  rewrite !step_eq. simpl.
  destruct (start_clicked (click req)); [|reflexivity].
  destruct q as [|a q]; simpl; [reflexivity|].
  unfold stored. rewrite !lookup_insert_eq. reflexivity.
Qed.

(** C8: a submission of the query "tiebreaker rules" with the model
    "gpt-4o" stores a result that has a finding titled "Tennis
    Tiebreaker Regulations" whose relevance is the float 0.95. *)
Theorem tiebreaker_rules_scenario (req : request)
    (ss : gmap string ResearchResult.t) :
  click req = StartResearch ->
  query (inputs req) = lit "tiebreaker rules" ->
  model (inputs req) = gpt_4o ->
  exists r x,
    stored (step ss req) = Some r
    /\ ResearchResult.query r = lit "tiebreaker rules"
    /\ ResearchResult.model r = lit "gpt-4o"
    /\ In x (ResearchResult.findings r)
    /\ Finding.title x = lit "Tennis Tiebreaker Regulations"
    /\ Finding.relevance x = float_of_decimal false 95 (-2)
    /\ float_repr (Finding.relevance x) = lit "0.95".
Proof.
  intros Hc Hq Hm. eexists. exists finding_1. split.
  - apply stored_step_submit; [exact Hc|]. rewrite Hq. vm_compute. discriminate.
  - cbn [build_results ResearchResult.query ResearchResult.model
         ResearchResult.findings]. rewrite Hq, Hm.
    repeat split; first [left; reflexivity | vm_compute; reflexivity].
Qed.

Lemma tiebreaker_rules_scenario_witness :
  exists r x,
    stored (step ∅ (sample_request (lit "tiebreaker rules") StartResearch))
    = Some r
    /\ ResearchResult.query r = lit "tiebreaker rules"
    /\ ResearchResult.model r = lit "gpt-4o"
    /\ In x (ResearchResult.findings r)
    /\ Finding.title x = lit "Tennis Tiebreaker Regulations"
    /\ Finding.relevance x = float_of_decimal false 95 (-2)
    /\ float_repr (Finding.relevance x) = lit "0.95".
Proof.
  apply (tiebreaker_rules_scenario
           (sample_request (lit "tiebreaker rules") StartResearch) ∅);
    reflexivity.
Defined.

(** C10: a run with the empty query leaves the session state as it
    was; a result stored before is still the stored result. *)
Theorem empty_query_keeps_stored_result (req : request)
    (ss : gmap string ResearchResult.t) (r : ResearchResult.t) :
  query (inputs req) = [] -> stored ss = Some r ->
  step ss req = ss /\ stored (step ss req) = Some r.
Proof.
  intros Hq Hr. rewrite (step_empty_query ss req Hq). split; [reflexivity|exact Hr].
Qed.

Lemma empty_query_keeps_stored_result_witness :
  step {["results" := sample_result]} (sample_request [] StartResearch)
  = {["results" := sample_result]}
  /\ stored (step {["results" := sample_result]}
               (sample_request [] StartResearch)) = Some sample_result.
Proof.
  apply (empty_query_keeps_stored_result (sample_request [] StartResearch)
           {["results" := sample_result]} sample_result); reflexivity.
Defined.

(** C5: in a submission with a query that is not empty the run always
    ends normally and renders the page down to its foot; and whenever
    the body of the [try] raises an exception, the page shows the error
    element made from it. *)
Theorem research_exceptions_are_caught (req : request)
    (ss : gmap string ResearchResult.t) :
  click req = StartResearch -> query (inputs req) <> [] ->
  fst (run req ss) = Returned tt
  /\ (exists before, rendered (page_after req ss) = before ++ page_foot)
  /\ (forall p0 e,
        fst (research_body (inputs req) (now req) (click req) (plan req) p0)
        = Raised e ->
        In (research_error e) (rendered (page_after req ss))).
Proof.
  intros Hc Hq. pose proof (click_accepted req Hc) as Ha.
  split; [apply run_returns, Ha|]. split.
  - rewrite (rendered_run req ss Ha). eexists. rewrite !app_assoc.
    reflexivity.
  - intros p0 e He.
    rewrite research_body_outcome in He.
    rewrite <- (research_body_outcome (inputs req) (now req) (click req)
                  (plan req) (mkPage ss [])) in He.
    destruct (start_research_raised (inputs req) (now req) (click req)
                (plan req) ss e) as [partial Hp]; [rewrite Hc; done | done | done |].
    rewrite (rendered_run req ss Ha), Hp. cbn [snd rendered].
    rewrite !in_app_iff. right. right. left.
    right. rewrite in_app_iff. right. left. reflexivity.
Qed.

Lemma research_exceptions_are_caught_witness :
  fst (run faulty_request ∅) = Returned tt
  /\ In (Error (lit "Error during research: widget failure"))
       (rendered (page_after faulty_request ∅)).
Proof.
  destruct (research_exceptions_are_caught faulty_request ∅)
    as (Hret & _ & Herr); [reflexivity | vm_compute; discriminate |].
  split; [exact Hret|].
  apply (Herr (mkPage ∅ []) sample_exc).
  rewrite research_body_outcome. reflexivity.
Defined.

Lemma state_of_step_stable ss req :
  state_of ss = ResultShown -> state_of (step ss req) = ResultShown.
Proof.
  intros H. rewrite step_eq.
  destruct (start_clicked _ && _); [|exact H].
  unfold state_of, stored. rewrite lookup_insert_eq. reflexivity.
Qed.

Lemma state_of_steps_stable reqs : forall ss,
  state_of ss = ResultShown -> state_of (steps ss reqs) = ResultShown.
Proof.
  induction reqs as [|req reqs IH]; intros ss H; simpl; [exact H|].
  apply IH, state_of_step_stable, H.
Qed.

(** C6: a submission with a query that is not empty leaves the page
    in ResultShown, from Idle as from ResultShown, with the new result
    in the place of any older one; no sequence of runs of the script
    leaves ResultShown; a reloaded page is Idle. *)
Theorem page_state_machine (req : request) (reqs : list request)
    (ss : gmap string ResearchResult.t) :
  click req = StartResearch -> query (inputs req) <> [] ->
  state_of (step ss req) = ResultShown
  /\ stored (step ss req) = Some (build_results (inputs req) (now req))
  /\ (forall ss0, state_of ss0 = ResultShown ->
        state_of (steps ss0 reqs) = ResultShown)
  /\ state_of (steps (step ss req) reqs) = ResultShown
  /\ state_of reload = Idle.
Proof.
  intros Hc Hq.
  assert (Hs : state_of (step ss req) = ResultShown).
  { unfold state_of. rewrite stored_step_submit by assumption. reflexivity. }
  repeat split.
  - exact Hs.
  - apply stored_step_submit; assumption.
  - intros ss0. apply state_of_steps_stable.
  - apply state_of_steps_stable, Hs.
Qed.

Lemma page_state_machine_witness :
  state_of reload = Idle
  /\ state_of (step reload (sample_request (lit "a") StartResearch))
     = ResultShown
  /\ state_of (steps (step reload (sample_request (lit "a") StartResearch))
                 [sample_request [] StartResearch;
                  sample_request (lit "b") NoClick;
                  sample_request (lit "b") ExportResults;
                  sample_request (lit "c") StartResearch])
     = ResultShown.
Proof.
  destruct (page_state_machine (sample_request (lit "a") StartResearch)
              [sample_request [] StartResearch;
               sample_request (lit "b") NoClick;
               sample_request (lit "b") ExportResults;
               sample_request (lit "c") StartResearch] reload)
    as (H1 & _ & _ & H3 & H4); [reflexivity | vm_compute; discriminate |].
  exact (conj H4 (conj H1 H3)).
Defined.

(** C9: the key is read at line 12 and tested for truth alone.  With
    the key absent the page holds the warning, and the script goes on
    after it: the title follows, and the run ends normally exactly when
    the date input of the form accepts the clock, as it does with a key.
    Whatever the key is, the run ends in the same way, with the same
    session state and the same page after the head, the head holding
    the warning exactly when the key is absent or empty. *)
Theorem api_key_is_only_tested (req : request)
    (ss : gmap string ResearchResult.t) :
  In key_warning (rendered (page_after (with_environ_key None req) ss))
  /\ (exists rest,
        rendered (page_after (with_environ_key None req) ss)
        = PageConfig (lit "XII-OS Deep Research") (lit "wide")
          :: key_warning :: Title (lit "XII-OS Deep Research") :: rest)
  /\ (fst (run (with_environ_key None req) ss) = Returned tt
      <-> date_range_accepted (range_now req) = true)
  /\ exists out ss' rest,
       forall k,
         run (with_environ_key k req) ss
         = (out,
            mkPage ss'
              (PageConfig (lit "XII-OS Deep Research") (lit "wide")
               :: (if opt_str_truthy k then [] else [key_warning]) ++ rest)).
Proof.
  assert (Hpage : exists rest,
            rendered (page_after (with_environ_key None req) ss)
            = PageConfig (lit "XII-OS Deep Research") (lit "wide")
              :: key_warning :: Title (lit "XII-OS Deep Research") :: rest).
  { destruct (date_range_accepted (range_now req)) eqn:Ha.
    - rewrite rendered_run by exact Ha. eexists. reflexivity.
    - rewrite rendered_rejected by exact Ha. eexists. reflexivity. }
  split; [|split; [exact Hpage|split]].
  - destruct Hpage as [rest ->]. right. left. reflexivity.
  - split.
    + intros Hret. destruct (date_range_accepted (range_now req)) eqn:Ha;
        [reflexivity|].
      destruct (run_rejected (with_environ_key None req) ss Ha) as [e He].
      rewrite He in Hret. discriminate.
    + intros Ha. apply run_returns. exact Ha.
  - destruct (date_input_error range_start (range_now req)) as [e|] eqn:He.
    + eexists. eexists. eexists. intros k. rewrite run_eq.
      cbn [environ_key inputs range_now DeepResearch.now click plan
           with_environ_key]. rewrite He. unfold page_head. reflexivity.
    + eexists. eexists. eexists. intros k. rewrite run_eq.
      cbn [environ_key inputs range_now DeepResearch.now click plan
           with_environ_key]. rewrite He. unfold page_head. reflexivity.
Qed.

(** ** The timestamp *)

Lemma pystr_eqb_eq a : forall b, pystr_eqb a b = true -> a = b.
Proof.
  induction a as [|x a IH]; intros [|y b] H; simpl in H;
    try discriminate; [reflexivity|].
  apply andb_true_iff in H as [Hx Hab].
  apply N.eqb_eq in Hx. subst. f_equal. apply IH, Hab.
Qed.

Lemma all_from_spec P count : forall n k,
  all_from count n P = true ->
  n <= k -> k < n + N.of_nat count -> P k = true.
Proof.
  induction count as [|count IH]; intros n k H Hlo Hhi; [lia|].
  cbn [all_from] in H. apply andb_true_iff in H as [Hn Hrest].
  destruct (N.eq_dec k n) as [->|Hne]; [exact Hn|].
  apply (IH (N.succ n)); [exact Hrest | lia | lia].
Qed.

Lemma all_below P b k :
  all_from (N.to_nat b) 0 P = true -> k < b -> P k = true.
Proof.
  intros H Hk. apply (all_from_spec P (N.to_nat b) 0 k H); lia.
Qed.

Lemma fmt_0d_2 n :
  n < 100 -> fmt_0d 2 n = [48 + n / 10; 48 + n mod 10].
Proof.
  intros H. apply pystr_eqb_eq.
  apply (all_below
           (fun n => pystr_eqb (fmt_0d 2 n) [48 + n / 10; 48 + n mod 10])
           100); [vm_compute; reflexivity | exact H].
Qed.

Lemma fmt_0d_4 n :
  n < 10000 ->
  fmt_0d 4 n
  = [48 + n / 1000; 48 + n / 100 mod 10; 48 + n / 10 mod 10; 48 + n mod 10].
Proof.
  intros H. apply pystr_eqb_eq.
  apply (all_below
           (fun n => pystr_eqb (fmt_0d 4 n)
                       [48 + n / 1000; 48 + n / 100 mod 10;
                        48 + n / 10 mod 10; 48 + n mod 10])
           10000); [vm_compute; reflexivity | exact H].
Qed.

Lemma is_digit_char d : d < 10 -> Json.is_digit (digit_char d) = true.
Proof.
  intros H. unfold Json.is_digit, digit_char.
  apply andb_true_iff. split; apply N.leb_le; lia.
Qed.

Lemma dec_digits_all_digits fuel : forall n acc,
  forallb Json.is_digit acc = true ->
  forallb Json.is_digit (dec_digits fuel n acc) = true.
Proof.
  induction fuel as [|fuel IH]; intros n acc H; simpl; [exact H|].
  assert (Hacc : forallb Json.is_digit (digit_char (n mod 10) :: acc) = true).
  { simpl. rewrite H, is_digit_char; [reflexivity|].
    apply N.mod_lt. discriminate. }
  destruct (n <? 10); [exact Hacc | apply IH, Hacc].
Qed.

Lemma dec_digits_length fuel : forall n acc,
  (length acc <= length (dec_digits fuel n acc))%nat.
Proof.
  induction fuel as [|fuel IH]; intros n acc; simpl; [lia|].
  destruct (n <? 10); [simpl; lia|].
  etransitivity; [|apply IH]. simpl. lia.
Qed.

Lemma fmt_0d_all_digits w n : forallb Json.is_digit (fmt_0d w n) = true.
Proof.
  unfold fmt_0d, zfill. rewrite forallb_app. apply andb_true_iff. split.
  - induction (w - _)%nat; simpl; auto.
  - apply dec_digits_all_digits. reflexivity.
Qed.

Lemma fmt_0d_nonempty w n : exists c ds, fmt_0d w n = c :: ds.
Proof.
  unfold fmt_0d, zfill.
  destruct (repeat 48 _) as [|z zs]; simpl; [|eauto].
  unfold dec. cbn [dec_digits].
  destruct (n <? 10); [eauto|].
  pose proof (dec_digits_length (N.to_nat (N.size n)) (n / 10)
                [digit_char (n mod 10)]) as Hlen.
  destruct (dec_digits _ _ _); simpl in Hlen; [lia | eauto].
Qed.

Lemma two_digits_fmt n :
  n < 100 -> two_digits (48 + n / 10) (48 + n mod 10) = n.
Proof.
  intros H. unfold two_digits.
  rewrite !(N.add_comm 48), !N.add_sub.
  symmetry. apply N.div_mod. discriminate.
Qed.

Lemma is_digit_48 d : d < 10 -> Json.is_digit (48 + d) = true.
Proof. apply is_digit_char. Qed.

Ltac digit_bound :=
  first [ apply N.mod_lt; discriminate
        | apply N.Div0.div_lt_upper_bound; lia ].

(** [isoformat] of a valid [datetime] is in the extended ISO 8601
    format. *)
Lemma isoformat_is_iso8601 t :
  valid_datetime t = true -> is_iso8601 (isoformat t) = true.
Proof.
  unfold valid_datetime. rewrite !andb_true_iff.
  rewrite !N.leb_le, !N.ltb_lt.
  intros (((((((((Hy1 & Hy2) & Hm1) & Hm2) & Hd1) & Hd2) & Hh) & Hn) & Hs) & Hu).
  assert (Hd3 : day t <= 31).
  { etransitivity; [exact Hd2|]. unfold days_in_month.
    repeat match goal with |- context [if ?b then _ else _] => destruct b end;
      lia. }
  unfold isoformat.
  rewrite (fmt_0d_4 (year t)), (fmt_0d_2 (month t)), (fmt_0d_2 (day t)),
    (fmt_0d_2 (hour t)), (fmt_0d_2 (minute t)), (fmt_0d_2 (second t)) by lia.
  cbn [app is_iso8601 forallb].
  rewrite !two_digits_fmt by lia.
  rewrite !is_digit_48 by digit_bound.
  repeat (apply andb_true_iff; split);
    try reflexivity;
    try (apply N.leb_le; lia); try (apply N.ltb_lt; lia).
  destruct (microsecond t =? 0); [reflexivity|].
  destruct (fmt_0d_nonempty 6 (microsecond t)) as (c & ds & E).
  pose proof (fmt_0d_all_digits 6 (microsecond t)) as Hd.
  rewrite E in *. exact Hd.
Qed.

(** ** The exported text *)

(** The text of the export: two spaces of indentation per level, the
    four keys in the order of the dictionary display, the findings as
    the two literal records. *)
Lemma dumps_result_layout q m ts :
  Json.dumps 2
    (ResearchResult.to_dict (ResearchResult.mk q m ts [finding_1; finding_2]))
  = export_text (Json.encode_basestring_ascii q)
      (Json.encode_basestring_ascii m) (Json.encode_basestring_ascii ts).
Proof.
  unfold Json.dumps, export_text.
  cbn [Json.encode ResearchResult.to_dict ResearchResult.query
       ResearchResult.model ResearchResult.timestamp map fst snd].
  generalize (Json.encode_basestring_ascii q) as Q.
  generalize (Json.encode_basestring_ascii m) as M.
  generalize (Json.encode_basestring_ascii ts) as T.
  intros T M Q.
  cbn [Json.join]. rewrite <- !app_assoc.
  vm_compute. reflexivity.
Qed.

(** ** Strings through [json]: escaping and scanning *)

Lemma decode_hex4_hex n :
  n < 65536 ->
  Json.decode_hex4 (Json.hex_char (n / 4096 mod 16))
    (Json.hex_char (n / 256 mod 16)) (Json.hex_char (n / 16 mod 16))
    (Json.hex_char (n mod 16)) = Some n.
Proof.
  intros H.
  pose proof (all_below
    (fun n =>
       match Json.decode_hex4 (Json.hex_char (n / 4096 mod 16))
               (Json.hex_char (n / 256 mod 16))
               (Json.hex_char (n / 16 mod 16)) (Json.hex_char (n mod 16))
       with
       | Some x => x =? n
       | None => false
       end) 65536 n) as Hall.
  cbv beta in Hall.
  destruct (Json.decode_hex4 _ _ _ _) as [x|].
  - f_equal. apply N.eqb_eq, Hall; [vm_compute; reflexivity | exact H].
  - discriminate Hall; [vm_compute; reflexivity | exact H].
Qed.

Lemma lor_d800 a : a < 1024 -> N.lor 0xd800 a = 0xd800 + a.
Proof.
  intros H. apply N.eqb_eq.
  apply (all_below (fun a => N.lor 0xd800 a =? 0xd800 + a) 1024);
    [vm_compute; reflexivity | exact H].
Qed.

Lemma lor_dc00 b : b < 1024 -> N.lor 0xdc00 b = 0xdc00 + b.
Proof.
  intros H. apply N.eqb_eq.
  apply (all_below (fun b => N.lor 0xdc00 b =? 0xdc00 + b) 1024);
    [vm_compute; reflexivity | exact H].
Qed.

(** The two halves of a number put back together. *)
Lemma lor_shiftl_div_mod n :
  N.lor (N.shiftl (n / 2 ^ 10) 10) (n mod 2 ^ 10) = n.
Proof.
  apply N.bits_inj. intros i. rewrite N.lor_spec.
  destruct (N.lt_ge_cases i 10) as [Hlo | Hhi].
  - rewrite N.shiftl_spec_low by exact Hlo.
    rewrite N.mod_pow2_bits_low by exact Hlo. reflexivity.
  - rewrite N.shiftl_spec_high' by exact Hhi.
    rewrite N.mod_pow2_bits_high by exact Hhi.
    rewrite N.div_pow2_bits, N.sub_add by exact Hhi.
    apply orb_false_r.
Qed.

(** The surrogate pair that [escape_char] writes for a character
    outside the basic plane. *)
Lemma surrogate_halves c :
  0x10000 <= c -> c < 0x110000 ->
  N.lor 0xd800 (N.land (N.shiftr (c - 0x10000) 10) 0x3ff)
  = 0xd800 + (c - 0x10000) / 2 ^ 10
  /\ N.lor 0xdc00 (N.land (c - 0x10000) 0x3ff)
     = 0xdc00 + (c - 0x10000) mod 2 ^ 10
  /\ (c - 0x10000) / 2 ^ 10 < 1024.
Proof.
  intros Hlo Hhi.
  assert (Hq : (c - 0x10000) / 2 ^ 10 < 2 ^ 10).
  { apply N.Div0.div_lt_upper_bound. change (2 ^ 10 * 2 ^ 10) with 0x100000. lia. }
  assert (Hr : (c - 0x10000) mod 2 ^ 10 < 2 ^ 10).
  { apply N.mod_lt. discriminate. }
  change 0x3ff with (N.ones 10).
  rewrite N.shiftr_div_pow2, !N.land_ones.
  rewrite (N.mod_small _ _ Hq).
  rewrite lor_d800, lor_dc00 by assumption. auto.
Qed.

Section Scanstring.

Local Arguments Json.hex_char : simpl never.
Local Arguments Json.decode_hex4 : simpl never.
Local Arguments is_high_surrogate : simpl never.
Local Arguments is_low_surrogate : simpl never.
Local Arguments N.add : simpl never.
Local Arguments N.lor : simpl never.
Local Arguments N.shiftl : simpl never.
Local Arguments N.sub : simpl never.
Local Arguments N.div : simpl never.
Local Arguments N.modulo : simpl never.

Local Abbreviation continue c X :=
  (match Json.scanstring X with
   | Some (t, rest) => Some (c :: t, rest)
   | None => None
   end).

Lemma scanstring_u4 n X :
  n < 65536 -> is_high_surrogate n = false ->
  Json.scanstring (92 :: 117 :: Json.hex4 n ++ X) = continue n X.
Proof.
  intros Hn Hs. unfold Json.hex4. simpl.
  rewrite (decode_hex4_hex n Hn), Hs. reflexivity.
Qed.

Lemma scanstring_pair hi lo X :
  hi < 65536 -> lo < 65536 ->
  is_high_surrogate hi = true -> is_low_surrogate lo = true ->
  Json.scanstring
    (92 :: 117 :: Json.hex4 hi ++ 92 :: 117 :: Json.hex4 lo ++ X)
  = continue (0x10000 + N.lor (N.shiftl (hi - 0xd800) 10) (lo - 0xdc00)) X.
Proof.
  intros Hhi Hlo Hh Hl. unfold Json.hex4. simpl.
  rewrite (decode_hex4_hex hi Hhi), Hh, (decode_hex4_hex lo Hlo), Hl.
  reflexivity.
Qed.

(** Scanning what [escape_char] wrote gives the character back. *)
Lemma scanstring_escape_char c X :
  is_scalar c = true ->
  Json.scanstring (Json.escape_char c ++ X) = continue c X.
Proof.
  unfold is_scalar. rewrite andb_true_iff, negb_true_iff, N.ltb_lt.
  intros [Hmax Hsur]. unfold Json.escape_char.
  repeat match goal with
  | |- context [if ?a =? ?b then _ else _] =>
      destruct (N.eqb_spec a b) as [->|?]; [reflexivity|]
  end.
  destruct ((32 <=? c) && (c <=? 126)) eqn:Hplain.
  - apply andb_true_iff in Hplain as [H1 H2].
    apply N.leb_le in H1, H2. simpl.
    destruct (N.eqb_spec c 34) as [->|_]; [congruence|].
    destruct (N.eqb_spec c 92) as [->|_]; [congruence|].
    destruct (N.ltb_spec c 32); [lia | reflexivity].
  - destruct (N.ltb_spec c 0x10000) as [Hbmp | Hastral].
    + apply scanstring_u4; [exact Hbmp|].
      unfold is_high_surrogate.
      apply andb_false_iff. apply andb_false_iff in Hsur as [H|H].
      * left. exact H.
      * right. apply N.leb_gt. apply N.leb_gt in H. lia.
    + cbv zeta.
      destruct (surrogate_halves c Hastral Hmax) as (-> & -> & Hq).
      assert (Hr : (c - 0x10000) mod 2 ^ 10 < 1024)
        by (apply N.mod_lt; discriminate).
      cbn [app]. rewrite <- app_assoc. cbn [app].
      rewrite scanstring_pair.
      * rewrite !(N.add_comm _ ((c - 0x10000) / 2 ^ 10)),
          !(N.add_comm _ ((c - 0x10000) mod 2 ^ 10)), !N.add_sub.
        rewrite lor_shiftl_div_mod.
        replace (0x10000 + (c - 0x10000)) with c by lia. reflexivity.
      * revert Hq. generalize ((c - 0x10000) / 2 ^ 10). lia.
      * revert Hr. generalize ((c - 0x10000) mod 2 ^ 10). lia.
      * unfold is_high_surrogate. apply andb_true_iff.
        revert Hq. generalize ((c - 0x10000) / 2 ^ 10). intros a Ha.
        split; apply N.leb_le; lia.
      * unfold is_low_surrogate. apply andb_true_iff.
        revert Hr. generalize ((c - 0x10000) mod 2 ^ 10). intros b Hb.
        split; apply N.leb_le; lia.
Qed.

Lemma scanstring_escape s : forall rest,
  is_text s = true ->
  Json.scanstring (Json.escape s ++ 34 :: rest) = Some (s, rest).
Proof.
  induction s as [|c s IH]; intros rest H; [reflexivity|].
  cbn [is_text forallb] in H. apply andb_true_iff in H as [Hc Hs].
  unfold Json.escape. cbn [flat_map]. rewrite <- app_assoc.
  rewrite scanstring_escape_char by exact Hc.
  fold (Json.escape s). rewrite (IH rest Hs). reflexivity.
Qed.

End Scanstring.

(** ** Reading the export back *)

(** The text of the export as the scanner meets it: three members
    with string values, then the findings. *)
Lemma dumps_result_members q m ts :
  Json.dumps 2
    (ResearchResult.to_dict (ResearchResult.mk q m ts [finding_1; finding_2]))
  = 123 :: 10 :: 32 :: 32 :: 34
    :: Json.escape (lit "query") ++ 34 :: 58 :: 32 :: 34
    :: Json.escape q ++ 34 :: 44 :: 10 :: 32 :: 32 :: 34
    :: Json.escape (lit "model") ++ 34 :: 58 :: 32 :: 34
    :: Json.escape m ++ 34 :: 44 :: 10 :: 32 :: 32 :: 34
    :: Json.escape (lit "timestamp") ++ 34 :: 58 :: 32 :: 34
    :: Json.escape ts ++ 34 :: 44 :: 10 :: 32 :: 32 :: 34
    :: Json.escape (lit "findings") ++ 34 :: 58 :: 32
    :: Json.encode 2 1 (PyList (map Finding.to_dict [finding_1; finding_2]))
    ++ [10; 125].
Proof.
  unfold Json.dumps.
  cbn [Json.encode ResearchResult.to_dict ResearchResult.query
       ResearchResult.model ResearchResult.timestamp
       ResearchResult.findings map fst snd Json.join].
  unfold Json.encode_basestring_ascii, Json.newline_indent.
  cbn [repeat Nat.mul Nat.add app].
  repeat (progress (rewrite <- ?app_assoc; cbn [app])).
  reflexivity.
Qed.

(** One member with a string value, followed by a comma and the next
    key. *)
Lemma scan_member_str fuel acc k v X :
  is_text k = true -> is_text v = true ->
  Json.scan_members (S (S fuel)) acc
    (Json.escape k ++ 34 :: 58 :: 32 :: 34
     :: Json.escape v ++ 34 :: 44 :: 10 :: 32 :: 32 :: 34 :: X)
  = Json.scan_members (S fuel) (dict_set k (PyStr v) acc) X.
Proof.
  intros Hk Hv.
  cbn [Json.scan_members]. rewrite (scanstring_escape k _ Hk).
  cbn [Json.skip_ws Json.is_ws N.eqb Pos.eqb orb].
  cbn [Json.scan_once N.eqb Pos.eqb].
  rewrite (scanstring_escape v _ Hv).
  cbn [Json.skip_ws Json.is_ws N.eqb Pos.eqb orb].
  reflexivity.
Qed.

Lemma scan_result k q m ts :
  is_text q = true -> is_text m = true -> is_text ts = true ->
  Json.scan_once (16 + k)
    (Json.dumps 2
       (ResearchResult.to_dict
          (ResearchResult.mk q m ts [finding_1; finding_2])))
  = Some (ResearchResult.to_dict
            (ResearchResult.mk q m ts [finding_1; finding_2]), []).
Proof.
  intros Hq Hm Hts. rewrite dumps_result_members.
  cbn [Nat.add].
  cbn [Json.scan_once N.eqb Pos.eqb Json.skip_ws Json.is_ws orb].
  rewrite !scan_member_str by (assumption || reflexivity).
  vm_compute. reflexivity.
Qed.

Lemma loads_object rest v k :
  S (length (123 :: rest)) = (16 + k)%nat ->
  Json.scan_once (16 + k) (123 :: rest) = Some (v, []) ->
  Json.loads (123 :: rest) = Some v.
Proof.
  intros Hlen Hscan. unfold Json.loads.
  cbn [Json.skip_ws Json.is_ws N.eqb Pos.eqb orb].
  rewrite Hlen, Hscan. reflexivity.
Qed.

(** Reading the export of a result back gives the dictionary that was
    written, whatever text the query, the model and the timestamp
    are. *)
Lemma loads_dumps_result q m ts :
  is_text q = true -> is_text m = true -> is_text ts = true ->
  Json.loads
    (Json.dumps 2
       (ResearchResult.to_dict
          (ResearchResult.mk q m ts [finding_1; finding_2])))
  = Some (ResearchResult.to_dict
            (ResearchResult.mk q m ts [finding_1; finding_2])).
Proof.
  intros Hq Hm Hts.
  pose proof (fun k => scan_result k q m ts Hq Hm Hts) as Hscan.
  revert Hscan. rewrite dumps_result_members. intros Hscan.
  match goal with
  | |- Json.loads (123 :: ?rest) = _ =>
      apply (loads_object rest _ (length rest - 14)); [|apply Hscan]
  end.
  repeat (progress (rewrite ?length_app; cbn [length])). lia.
Qed.

Lemma digits_are_text s : forallb Json.is_digit s = true -> is_text s = true.
Proof.
  induction s as [|c s IH]; [reflexivity|]. cbn [forallb is_text].
  rewrite !andb_true_iff. intros [Hc Hs]. split; [|apply IH, Hs].
  unfold Json.is_digit in Hc. apply andb_true_iff in Hc as [H1 H2].
  apply N.leb_le in H1, H2. unfold is_scalar.
  apply andb_true_iff. split; [apply N.ltb_lt; lia|].
  apply negb_true_iff, andb_false_iff. left. apply N.leb_gt. lia.
Qed.

Lemma is_text_app a b : is_text (a ++ b) = is_text a && is_text b.
Proof. apply forallb_app. Qed.

Lemma is_text_fmt_0d w n : is_text (fmt_0d w n) = true.
Proof. apply digits_are_text, fmt_0d_all_digits. Qed.

(** A timestamp is made of digits and punctuation, whatever the
    clock says. *)
Lemma is_text_isoformat t : is_text (isoformat t) = true.
Proof.
  unfold isoformat.
  repeat first [ rewrite is_text_app | rewrite is_text_fmt_0d
               | progress cbn [is_text forallb andb] ].
  change (is_scalar 45) with true. change (is_scalar 84) with true.
  change (is_scalar 58) with true. cbn [andb].
  destruct (microsecond t =? 0); [reflexivity|].
  cbn [forallb]. change (is_scalar 46) with true.
  apply is_text_fmt_0d.
Qed.

Lemma is_text_model_label m : is_text (model_label m) = true.
Proof. destruct m; reflexivity. Qed.

Lemma rendered_submit req ss :
  click req = StartResearch -> query (inputs req) <> [] ->
  (forall c, plan req c = None) ->
  rendered (page_after req ss)
  = page_head (environ_key req) ++ page_form
    ++ (start_button :: results_view (build_results (inputs req) (now req)))
    ++ page_foot.
Proof.
  intros Hc Hq Hf. rewrite (rendered_run req ss (click_accepted req Hc)).
  rewrite start_research_ok by (rewrite ?Hc; done). reflexivity.
Qed.

Lemma export_button_rendered req ss :
  click req = StartResearch -> query (inputs req) <> [] ->
  (forall c, plan req c = None) ->
  In (export_button (build_results (inputs req) (now req)))
    (rendered (page_after req ss)).
Proof.
  intros Hc Hq Hf. rewrite rendered_submit by assumption.
  rewrite !in_app_iff. right. right. left.
  right. unfold results_view. right. rewrite in_app_iff. right. left.
  reflexivity.
Qed.

Ltac page_done :=
  cbn [snd rendered session_state app]; repeat constructor.

Ltac next_render f :=
  flatten; rewrite bind_guarded;
  match goal with
  | |- context [match f ?c with _ => _ end] => destruct (f c) eqn:?
  end; [page_done | flatten].

(** Whatever fails, the only download button the body of the [try]
    renders is the export button of the result it stored. *)
Lemma research_body_downloads w now t f ss :
  Forall (is_export (build_results w now))
    (rendered (snd (research_body w now t f (mkPage ss [])))).
Proof.
  unfold research_body.
  rewrite bind_session_set. next_render f.
  rewrite bind_emit.
  rewrite (bind_session_get _ (build_results w now))
    by apply lookup_insert_eq.
  cbn [ResearchResult.findings build_results render_findings].
  next_render f.
  rewrite bind_within. next_render f.
  rewrite bind_emit. next_render f.
  unfold emit at 1. cbv beta iota zeta.
  next_render f.
  rewrite bind_within. next_render f.
  rewrite bind_emit. next_render f.
  unfold emit at 1. cbv beta iota zeta.
  unfold ret at 1. unfold bind at 1.
  rewrite (bind_session_get _ (build_results w now))
    by apply lookup_insert_eq.
  next_render f. next_render f. rewrite bind_emit.
  destruct (export_clicked t).
  - next_render f. page_done.
  - page_done.
Qed.

(** A download button on the page is the export button of the result
    the run has just stored: it is rendered only by a submission with a
    query that is not empty. *)
Lemma offered_download req ss label data file_name mime :
  In (DownloadButton label data file_name mime) (rendered (page_after req ss)) ->
  click req = StartResearch
  /\ query (inputs req) <> []
  /\ DownloadButton label data file_name mime
     = export_button (build_results (inputs req) (now req)).
Proof.
  destruct (date_range_accepted (range_now req)) eqn:Ha.
  2:{ rewrite (rendered_rejected req ss Ha), in_app_iff.
      intros [Hin | Hin].
      - unfold page_head in Hin. destruct (opt_str_truthy _); simpl in Hin;
          intuition discriminate.
      - simpl in Hin. intuition discriminate. }
  rewrite (rendered_run req ss Ha), !in_app_iff.
  intros [Hin | [Hin | [Hin | Hin]]].
  - unfold page_head in Hin. destruct (opt_str_truthy _); simpl in Hin;
      intuition discriminate.
  - simpl in Hin. intuition discriminate.
  - destruct (start_clicked (click req)) eqn:Hc.
    2:{ rewrite start_research_idle in Hin by exact Hc.
        simpl in Hin. intuition discriminate. }
    destruct (query (inputs req)) as [|c q] eqn:Hq.
    { rewrite start_research_empty in Hin by assumption.
      simpl in Hin. intuition discriminate. }
    split; [destruct (click req); done|]. split; [discriminate|].
    revert Hin. unfold start_research. rewrite bind_emit, Hc, Hq.
    cbn [str_truthy negb]. unfold spinner, try_except.
    rewrite uniform_research_body. cbn [rendered session_state app].
    pose proof (research_body_downloads (inputs req) (now req) (click req)
                  (plan req) ss) as Hall.
    destruct (research_body _ _ _ _ (mkPage ss [])) as [[[]|e] [ss1 r1]];
      cbn [snd fst rendered session_state] in *.
    + intros [Hb | Hin]; [discriminate|].
      rewrite List.Forall_forall in Hall. apply (Hall _ Hin).
    + unfold research_handler, emit. cbn [snd rendered].
      intros [Hb | Hin]; [discriminate|].
      apply in_app_iff in Hin as [Hin | [He | []]]; [|discriminate].
      rewrite List.Forall_forall in Hall. apply (Hall _ Hin).
  - simpl in Hin. intuition discriminate.
Qed.

(** C4: the text of every download the page offers, read back with
    [json.loads], is the dictionary of the stored result it was
    serialized from; and every submission with a query that is not
    empty stores a result with that round trip.  The query is text: a
    sequence of Unicode scalar values, as the text area delivers. *)
Theorem export_round_trips (req : request)
    (ss : gmap string ResearchResult.t) :
  is_text (query (inputs req)) = true ->
  (forall label data file_name mime,
     In (DownloadButton label data file_name mime)
        (rendered (page_after req ss)) ->
     exists r,
       stored (step ss req) = Some r
       /\ data = Json.dumps 2 (ResearchResult.to_dict r)
       /\ Json.loads data = Some (ResearchResult.to_dict r))
  /\ (click req = StartResearch -> query (inputs req) <> [] ->
      exists r,
        stored (step ss req) = Some r
        /\ Json.loads (Json.dumps 2 (ResearchResult.to_dict r))
           = Some (ResearchResult.to_dict r)).
Proof.
  intros Ht.
  assert (Hrt : Json.loads
                  (Json.dumps 2
                     (ResearchResult.to_dict
                        (build_results (inputs req) (now req))))
                = Some (ResearchResult.to_dict
                          (build_results (inputs req) (now req)))).
  { unfold build_results. apply loads_dumps_result.
    - exact Ht.
    - apply is_text_model_label.
    - apply is_text_isoformat. }
  split.
  - intros label data file_name mime Hin.
    destruct (offered_download _ _ _ _ _ _ Hin) as (Hc & Hq & Heq).
    exists (build_results (inputs req) (now req)).
    split; [apply stored_step_submit; assumption|].
    injection Heq as _ -> _ _. split; [reflexivity | exact Hrt].
  - intros Hc Hq. exists (build_results (inputs req) (now req)).
    split; [apply stored_step_submit; assumption | exact Hrt].
Qed.

Lemma export_round_trips_witness :
  exists r,
    stored (step ∅ (sample_request (lit "tiebreaker rules") StartResearch))
    = Some r
    /\ Json.loads (Json.dumps 2 (ResearchResult.to_dict r))
       = Some (ResearchResult.to_dict r).
Proof.
  destruct (export_round_trips
              (sample_request (lit "tiebreaker rules") StartResearch) ∅)
    as [_ H]; [vm_compute; reflexivity|].
  apply H; [reflexivity | vm_compute; discriminate].
Defined.

(** Outside text the round trip can fail: two surrogate code points
    written one after the other are read back as one character.  No
    such string comes out of the text area. *)
Remark surrogate_code_points_merge :
  Json.loads (Json.dumps 2 (PyStr [0xD83D; 0xDE00])) = Some (PyStr [0x1F600]).
Proof. vm_compute. reflexivity. Qed.

(** What a JSON string holds as it is. *)
Lemma escape_plain s :
  forallb is_plain_char s = true -> Json.escape s = s.
Proof.
  induction s as [|c s IH]; [reflexivity|]. cbn [forallb].
  rewrite andb_true_iff. intros [Hc Hs].
  unfold Json.escape. cbn [flat_map]. fold (Json.escape s). rewrite (IH Hs).
  unfold is_plain_char in Hc. rewrite !andb_true_iff, !negb_true_iff in Hc.
  destruct Hc as [[[H1 H2] H3] H4].
  apply N.leb_le in H1, H2. apply N.eqb_neq in H3, H4.
  unfold Json.escape_char.
  repeat match goal with
  | |- context [if ?a =? ?b then _ else _] =>
      destruct (N.eqb_spec a b) as [?|?]; [lia|]
  end.
  destruct (N.leb_spec 32 c); [|lia]. destruct (N.leb_spec c 126); [|lia].
  reflexivity.
Qed.

Lemma digits_are_plain s :
  forallb Json.is_digit s = true -> forallb is_plain_char s = true.
Proof.
  induction s as [|c s IH]; [reflexivity|]. cbn [forallb].
  rewrite !andb_true_iff. intros [Hc Hs]. split; [|apply IH, Hs].
  unfold Json.is_digit in Hc. apply andb_true_iff in Hc as [H1 H2].
  apply N.leb_le in H1, H2. unfold is_plain_char.
  rewrite !andb_true_iff, !negb_true_iff.
  repeat split; first [apply N.leb_le; lia | apply N.eqb_neq; lia].
Qed.

Lemma plain_fmt_0d w n : forallb is_plain_char (fmt_0d w n) = true.
Proof. apply digits_are_plain, fmt_0d_all_digits. Qed.

Lemma plain_isoformat t : forallb is_plain_char (isoformat t) = true.
Proof.
  unfold isoformat.
  repeat first [ rewrite forallb_app | rewrite plain_fmt_0d
               | progress cbn [forallb andb] ].
  change (is_plain_char 45) with true. change (is_plain_char 84) with true.
  change (is_plain_char 58) with true. cbn [andb].
  destruct (microsecond t =? 0); [reflexivity|].
  cbn [forallb]. change (is_plain_char 46) with true.
  apply plain_fmt_0d.
Qed.

Lemma plain_model_label m : forallb is_plain_char (model_label m) = true.
Proof. destruct m; vm_compute; reflexivity. Qed.

(** The text of the export with its strings spelled out: only the
    query can hold a character that is written as an escape. *)
Lemma dumps_result_text q m ts :
  forallb is_plain_char m = true -> forallb is_plain_char ts = true ->
  Json.dumps 2
    (ResearchResult.to_dict (ResearchResult.mk q m ts [finding_1; finding_2]))
  = export_text (quoted (Json.escape q)) (quoted m) (quoted ts).
Proof.
  intros Hm Hts. rewrite dumps_result_layout.
  unfold Json.encode_basestring_ascii, quoted.
  rewrite (escape_plain m Hm), (escape_plain ts Hts). reflexivity.
Qed.

(** C7 as the code has it: every download the page offers is named
    "research_results.json", has the type "application/json", and holds
    the result the run stored, serialized with two spaces of
    indentation under the top-level keys query, model, timestamp and
    findings: the text is spelled out, and it reads back as the
    dictionary with these four keys.  The timestamp is an ISO 8601
    string.  A submission with a query that is not empty, when nothing
    fails, offers that download. *)
Theorem export_offered (req : request) (ss : gmap string ResearchResult.t) :
  valid_datetime (now req) = true ->
  (forall label data file_name mime,
     In (DownloadButton label data file_name mime)
        (rendered (page_after req ss)) ->
     exists r,
       stored (step ss req) = Some r
       /\ file_name = lit "research_results.json"
       /\ mime = lit "application/json"
       /\ data = Json.dumps 2 (ResearchResult.to_dict r)
       /\ data
          = export_text
              (quoted (Json.escape (ResearchResult.query r)))
              (quoted (ResearchResult.model r))
              (quoted (ResearchResult.timestamp r))
       /\ (forallb is_plain_char (ResearchResult.query r) = true ->
           data
           = export_text
               (quoted (ResearchResult.query r))
               (quoted (ResearchResult.model r))
               (quoted (ResearchResult.timestamp r)))
       /\ (is_text (ResearchResult.query r) = true ->
           Json.loads data
           = Some (PyDict
                     [(lit "query", PyStr (ResearchResult.query r));
                      (lit "model", PyStr (ResearchResult.model r));
                      (lit "timestamp", PyStr (ResearchResult.timestamp r));
                      (lit "findings",
                       PyList (map Finding.to_dict
                                 (ResearchResult.findings r)))]))
       /\ In (ResearchResult.model r) model_options
       /\ is_iso8601 (ResearchResult.timestamp r) = true)
  /\ (click req = StartResearch -> query (inputs req) <> [] ->
      (forall c, plan req c = None) ->
      exists data,
        In (DownloadButton (lit "Export Results as JSON") data
              (lit "research_results.json") (lit "application/json"))
           (rendered (page_after req ss))).
Proof.
  intros Hv. split.
  - intros label data file_name mime Hin.
    destruct (offered_download _ _ _ _ _ _ Hin) as (Hc & Hq & Heq).
    exists (build_results (inputs req) (now req)).
    split; [apply stored_step_submit; assumption|].
    injection Heq as _ -> -> ->.
    split; [reflexivity|]. split; [reflexivity|]. split; [reflexivity|].
    assert (Htext : Json.dumps 2
                      (ResearchResult.to_dict
                         (build_results (inputs req) (now req)))
                    = export_text
                        (quoted (Json.escape (query (inputs req))))
                        (quoted (model_label (model (inputs req))))
                        (quoted (isoformat (now req)))).
    { unfold build_results. apply dumps_result_text.
      - apply plain_model_label.
      - apply plain_isoformat. }
    split; [exact Htext|].
    split.
    { intros Hplain. rewrite Htext.
      cbn [build_results ResearchResult.query ResearchResult.model
           ResearchResult.timestamp] in *.
      rewrite (escape_plain _ Hplain). reflexivity. }
    split.
    { intros Ht. unfold build_results. apply loads_dumps_result.
      - exact Ht.
      - apply is_text_model_label.
      - apply is_text_isoformat. }
    split.
    { cbn [build_results ResearchResult.model]. unfold model_options.
      destruct (model (inputs req)); simpl; auto. }
    apply isoformat_is_iso8601, Hv.
  - intros Hc Hq Hf. eexists.
    apply (export_button_rendered req ss Hc Hq Hf).
Qed.

Lemma export_offered_witness :
  In (DownloadButton (lit "Export Results as JSON") sample_export
        (lit "research_results.json") (lit "application/json"))
     (rendered (page_after
                  (sample_request (lit "tiebreaker rules") StartResearch) ∅)).
Proof.
  destruct (export_offered
              (sample_request (lit "tiebreaker rules") StartResearch) ∅)
    as [Hall Hex]; [reflexivity|].
  destruct Hex as [data Hin];
    [reflexivity | vm_compute; discriminate | reflexivity |].
  destruct (Hall _ _ _ _ Hin) as (r & Hs & _ & _ & _ & _ & Hplain & _).
  rewrite stored_step_submit in Hs
    by first [reflexivity | vm_compute; discriminate].
  injection Hs as <-.
  rewrite Hplain in Hin by (vm_compute; reflexivity).
  assert (E : export_text
                (quoted (lit "tiebreaker rules")) (quoted (lit "gpt-4o"))
                (quoted (isoformat sample_now))
              = sample_export) by (vm_compute; reflexivity).
  cbn [build_results ResearchResult.query ResearchResult.model
       ResearchResult.timestamp sample_request sample_inputs inputs
       DeepResearch.now query model model_label] in Hin.
  rewrite E in Hin. exact Hin.
Defined.

(** C7 as stated fails: a result is stored, the page is run again with
    no click, and the run, which ends normally, offers no download. *)
Lemma stored_result_without_download_counterexample :
  stored {["results" := sample_result]} = Some sample_result
  /\ stored (step {["results" := sample_result]}
               (sample_request (lit "tiebreaker rules") NoClick))
     = Some sample_result
  /\ fst (run (sample_request (lit "tiebreaker rules") NoClick)
            {["results" := sample_result]}) = Returned tt
  /\ forall label data file_name mime,
       ~ In (DownloadButton label data file_name mime)
           (rendered (page_after
                        (sample_request (lit "tiebreaker rules") NoClick)
                        {["results" := sample_result]})).
Proof.
  split; [reflexivity|]. split; [rewrite step_eq; reflexivity|].
  split; [apply run_returns; reflexivity|].
  intros label data file_name mime Hin.
  destruct (offered_download _ _ _ _ _ _ Hin) as (Hc & _).
  discriminate Hc.
Qed.

(** A run that no submission started renders no result, also when one
    is stored. *)
Remark stored_result_is_not_rendered (req : request)
    (ss : gmap string ResearchResult.t) :
  start_clicked (click req) = false ->
  date_range_accepted (range_now req) = true ->
  rendered (page_after req ss)
  = page_head (environ_key req) ++ page_form ++ [start_button] ++ page_foot.
Proof.
  intros Hc Ha. rewrite (rendered_run req ss Ha).
  rewrite start_research_idle by exact Hc.
  reflexivity.
Qed.

(** ** The anatomy of a rendered page *)

Lemma first_failing_cons f c cs :
  first_failing f (c :: cs)
  = match f c with
    | Some e => Some (c, e)
    | None => first_failing f cs
    end.
Proof. reflexivity. Qed.

Lemma first_raised_failing f cs :
  first_raised f cs = snd <$> first_failing f cs.
Proof.
  induction cs as [|c cs IH]; [reflexivity|].
  cbn [first_raised first_failing]. destruct (f c); [reflexivity | exact IH].
Qed.

Lemma first_failing_in f cs c e :
  first_failing f cs = Some (c, e) -> In c cs /\ f c = Some e.
Proof.
  induction cs as [|c0 cs IH]; [discriminate|].
  cbn [first_failing]. destruct (f c0) as [e0|] eqn:E.
  - intros [= <- <-]. split; [left; reflexivity | exact E].
  - intros H. destruct (IH H) as [Hin Hf]. split; [right; exact Hin | exact Hf].
Qed.

Ltac view_case f :=
  flatten; rewrite bind_guarded;
  match goal with
  | |- context [first_failing f (?c :: _)] =>
      rewrite (first_failing_cons f c); destruct (f c) eqn:?; [reflexivity|]
  end; flatten.

(** The body of the [try] in a run started by the submit button: it
    stores the result, then renders its view up to the first call that
    fails. *)
Lemma research_body_view w now f ss :
  research_body w now StartResearch f (mkPage ss [])
  = match first_failing f (body_calls StartResearch) with
    | None =>
        (Returned tt,
         mkPage (<["results" := build_results w now]> ss)
           (results_view (build_results w now)))
    | Some (c, e) =>
        (Raised e,
         mkPage (<["results" := build_results w now]> ss)
           (view_before (build_results w now) c))
    end.
Proof.
  unfold research_body, body_calls. cbn [export_clicked app].
  rewrite bind_session_set. view_case f.
  rewrite bind_emit.
  rewrite (bind_session_get _ (build_results w now))
    by apply lookup_insert_eq.
  cbn [ResearchResult.findings build_results render_findings].
  view_case f.
  rewrite bind_within. view_case f.
  rewrite bind_emit. view_case f.
  unfold emit at 1. cbv beta iota zeta.
  view_case f.
  rewrite bind_within. view_case f.
  rewrite bind_emit. view_case f.
  unfold emit at 1. cbv beta iota zeta.
  unfold ret at 1. unfold bind at 1.
  rewrite (bind_session_get _ (build_results w now))
    by apply lookup_insert_eq.
  view_case f. view_case f. rewrite bind_emit.
  reflexivity.
Qed.

(** Before the export button the view holds the success message and
    blocks of findings only. *)
Lemma view_before_prefix w now c :
  In c (body_calls StartResearch) ->
  Forall body_prefix_element (view_before (build_results w now) c).
Proof.
  unfold body_calls. cbn [export_clicked app In].
  intros H.
  repeat (destruct H as [<- | H];
          [cbn [view_before blocks_before build_results
                ResearchResult.findings Nat.eqb];
           repeat constructor|]).
  destruct H.
Qed.

(** A run that goes past the date input renders the head, the form and
    the submit button, then one of four middles, then the foot; it ends
    normally. *)
Lemma page_anatomy req ss :
  date_range_accepted (range_now req) = true ->
  exists middle,
    page_middle req middle
    /\ run req ss
       = (Returned tt,
          mkPage (step ss req)
            (page_head (environ_key req) ++ page_form
             ++ start_button :: middle ++ page_foot)).
Proof.
  intros Ha. rewrite (run_accepted req ss Ha). rewrite step_eq.
  destruct (start_clicked (click req)) eqn:Hc.
  2:{ exists []. split; [apply MiddleIdle, Hc|].
      rewrite start_research_idle by exact Hc. reflexivity. }
  destruct (query (inputs req)) as [|c q] eqn:Hq.
  { exists [query_warning]. split; [apply MiddleRejected; assumption|].
    rewrite start_research_empty by assumption. reflexivity. }
  assert (Hne : query (inputs req) <> []) by (rewrite Hq; discriminate).
  assert (Ht : click req = StartResearch) by (destruct (click req); done).
  rewrite <- Hq.
  unfold start_research. rewrite bind_emit, Hc, Hq.
  cbn [str_truthy negb andb]. unfold spinner, try_except.
  rewrite uniform_research_body. cbn [rendered session_state app].
  pose proof (MiddleResult req Hc Hne) as Hres.
  pose proof (fun c e => MiddleError req c e Hc Hne) as Herr.
  rewrite Ht in *. rewrite research_body_view.
  destruct (first_failing (plan req) (body_calls StartResearch))
    as [[c0 e]|].
  - exists (view_before (build_results (inputs req) (now req)) c0
            ++ [research_error e]).
    split; [apply Herr; reflexivity|].
    unfold research_handler, emit. cbn [fst snd rendered session_state].
    reflexivity.
  - exists (results_view (build_results (inputs req) (now req))).
    split; [apply Hres; reflexivity|].
    cbn [fst snd rendered session_state]. reflexivity.
Qed.

Lemma rendered_anatomy req ss :
  date_range_accepted (range_now req) = true ->
  exists middle,
    page_middle req middle
    /\ rendered (page_after req ss)
       = page_head (environ_key req) ++ page_form
         ++ start_button :: middle ++ page_foot.
Proof.
  intros Ha. destruct (page_anatomy req ss Ha) as (middle & Hm & Hr).
  exists middle. split; [exact Hm|]. unfold page_after. rewrite Hr.
  reflexivity.
Qed.

(** What the middle of a page can hold. *)
Lemma middle_elements req middle el :
  page_middle req middle -> In el middle ->
  el = query_warning
  \/ body_prefix_element el
  \/ el = export_button (build_results (inputs req) (now req))
  \/ exists e, el = research_error e.
Proof.
  intros Hm Hin. destruct Hm as [Hc | Hc Hq | Hc Hq Hf | c e Hc Hq Hf].
  - destruct Hin.
  - destruct Hin as [<- | []]. left. reflexivity.
  - unfold results_view in Hin. cbn [build_results ResearchResult.findings map app] in Hin.
    destruct Hin as [<- | [<- | [<- | [<- | []]]]].
    + right. left. exact I.
    + right. left. exact I.
    + right. left. exact I.
    + right. right. left. reflexivity.
  - apply in_app_iff in Hin as [Hin | [<- | []]].
    + right. left.
      assert (Ht : click req = StartResearch) by (destruct (click req); done).
      rewrite Ht in Hf. apply first_failing_in in Hf as [Hcs _].
      pose proof (view_before_prefix (inputs req) (now req) c Hcs) as Hall.
      rewrite List.Forall_forall in Hall. apply Hall, Hin.
    + right. right. right. exists e. reflexivity.
Qed.

(** What the page holds at its top level, whether the run went past the
    date input or not. *)
Lemma page_elements req ss el :
  In el (rendered (page_after req ss)) ->
  In el (page_head (environ_key req))
  \/ In el page_form \/ In el page_form_cut
  \/ el = start_button
  \/ (exists middle, page_middle req middle /\ In el middle)
  \/ In el page_foot.
Proof.
  destruct (date_range_accepted (range_now req)) eqn:Ha.
  - destruct (rendered_anatomy req ss Ha) as (middle & Hm & ->).
    rewrite !in_app_iff. cbn [In]. rewrite in_app_iff.
    intros [Hin | [Hin | [Hin | [Hin | Hin]]]]; eauto 8.
  - rewrite (rendered_rejected req ss Ha), in_app_iff.
    intros [Hin | Hin]; auto.
Qed.

(** ** Further properties of the page *)

(** X1: when the date input accepts the clock, the run ends normally
    and renders the configuration and the key check, the form with its
    sidebar and advanced options, and the submit button; then nothing,
    the query warning, the view of the result, or the part of that view
    that precedes the first failing call, closed by the error of that
    call; then the foot.  Otherwise the run ends with what the date
    input raises: the session state is as it was, and the page stops in
    the advanced options, with no date input, no submit button and no
    foot. *)
Theorem run_renders_page_or_stops_at_date_input (req : request)
    (ss : gmap string ResearchResult.t) :
  if date_range_accepted (range_now req)
  then exists middle,
         page_middle req middle
         /\ run req ss
            = (Returned tt,
               mkPage (step ss req)
                 (page_head (environ_key req) ++ page_form
                  ++ start_button :: middle ++ page_foot))
  else exists e,
         run req ss
         = (Raised e,
            mkPage ss (page_head (environ_key req) ++ page_form_cut)).
Proof.
  destruct (date_range_accepted (range_now req)) eqn:Ha.
  - apply page_anatomy, Ha.
  - apply run_rejected, Ha.
Qed.

(** X2: no run renders the balloons: the export button is rendered
    only in a run that the submit button started, and in such a run the
    export button was not clicked. *)
Theorem balloons_never_rendered (req : request)
    (ss : gmap string ResearchResult.t) :
  ~ In Balloons (rendered (page_after req ss)).
Proof.
  intros Hin.
  destruct (page_elements req ss _ Hin)
    as [H | [H | [H | [H | [(middle & Hm & H) | H]]]]].
  - unfold page_head in H. destruct (opt_str_truthy _); simpl in H;
      intuition discriminate.
  - simpl in H. intuition discriminate.
  - simpl in H. intuition discriminate.
  - discriminate H.
  - destruct (middle_elements req middle _ Hm H) as [H' | [H' | [H' | [e H']]]];
      try discriminate H'. exact H'.
  - simpl in H. intuition discriminate.
Qed.

(** X3: the key warning is on the page exactly when the key is absent
    or the empty string. *)
Theorem key_warning_iff_key_missing_or_empty (req : request)
    (ss : gmap string ResearchResult.t) :
  In key_warning (rendered (page_after req ss))
  <-> (environ_key req = None \/ environ_key req = Some []).
Proof.
  split.
  - intros Hin.
    destruct (page_elements req ss _ Hin)
      as [H | [H | [H | [H | [(middle & Hm & H) | H]]]]].
    + destruct (environ_key req) as [[|c k]|]; auto.
      simpl in H. intuition discriminate.
    + simpl in H. intuition discriminate.
    + simpl in H. intuition discriminate.
    + discriminate H.
    + destruct (middle_elements req middle _ Hm H) as [H' | [H' | [H' | [e H']]]].
      * vm_compute in H'. discriminate H'.
      * destruct H'.
      * discriminate H'.
      * discriminate H'.
    + simpl in H. unfold key_warning in H.
      destruct H as [H | [H | []]]; discriminate H.
  - intros Hk.
    assert (Hhead : In key_warning (page_head (environ_key req))).
    { destruct Hk as [-> | ->]; simpl; auto. }
    destruct (date_range_accepted (range_now req)) eqn:Ha.
    + rewrite (rendered_run req ss Ha), in_app_iff. left. exact Hhead.
    + rewrite (rendered_rejected req ss Ha), in_app_iff. left. exact Hhead.
Qed.

(** X4: a run that the submit button did not start (no click, or the
    click on the export button) leaves the session state as it was.
    When the date input accepts the clock it ends normally and renders
    the form alone, whatever result is stored; otherwise it ends at the
    date input with what that call raises, as the first load of the
    page does under a clock that was never set. *)
Theorem run_without_submit (req : request)
    (ss : gmap string ResearchResult.t) :
  start_clicked (click req) = false ->
  step ss req = ss
  /\ if date_range_accepted (range_now req)
     then run req ss
          = (Returned tt,
             mkPage ss
               (page_head (environ_key req) ++ page_form ++ [start_button]
                ++ page_foot))
     else exists e,
            run req ss
            = (Raised e,
               mkPage ss (page_head (environ_key req) ++ page_form_cut)).
Proof.
  intros Hc. split.
  - rewrite step_eq, Hc. reflexivity.
  - destruct (date_range_accepted (range_now req)) eqn:Ha.
    + rewrite (run_accepted req ss Ha).
      rewrite start_research_idle by exact Hc. reflexivity.
    + apply run_rejected, Ha.
Qed.

Lemma run_without_submit_witness :
  run (sample_request (lit "tiebreaker rules") ExportResults)
    {["results" := sample_result]}
  = (Returned tt,
     mkPage {["results" := sample_result]}
       (page_head None ++ page_form ++ [start_button] ++ page_foot))
  /\ exists e,
       run (first_load None unset_clock) ∅
       = (Raised e, mkPage ∅ (page_head None ++ page_form_cut)).
Proof.
  split.
  - apply (run_without_submit
             (sample_request (lit "tiebreaker rules") ExportResults)
             {["results" := sample_result]}).
    reflexivity.
  - apply (run_without_submit (first_load None unset_clock) ∅).
    reflexivity.
Defined.

(** X5: when a call in the body of the [try] fails during a
    submission, the result is stored all the same, what was rendered of
    it until then is followed by the error and the foot, and no
    download is offered. *)
Theorem failed_rendering_offers_no_export (req : request)
    (ss : gmap string ResearchResult.t) (e : exc) :
  click req = StartResearch -> query (inputs req) <> [] ->
  first_raised (plan req) (body_calls (click req)) = Some e ->
  stored (step ss req) = Some (build_results (inputs req) (now req))
  /\ (exists partial,
        Forall body_prefix_element partial
        /\ rendered (page_after req ss)
           = page_head (environ_key req) ++ page_form
             ++ start_button :: partial ++ research_error e :: page_foot)
  /\ (forall label data file_name mime,
        ~ In (DownloadButton label data file_name mime)
            (rendered (page_after req ss))).
Proof.
  intros Hc Hq Hf.
  split; [apply stored_step_submit; assumption|].
  destruct (rendered_anatomy req ss (click_accepted req Hc))
    as (middle & Hm & Hr).
  rewrite first_raised_failing in Hf.
  assert (Hmid : exists partial,
             Forall body_prefix_element partial
             /\ middle = partial ++ [research_error e]).
  { destruct Hm as [Hc' | Hc' Hq' | Hc' Hq' Hf' | c e' Hc' Hq' Hf'].
    - rewrite Hc in Hc'. discriminate.
    - contradiction.
    - rewrite Hf' in Hf. discriminate.
    - rewrite Hf' in Hf. injection Hf as <-.
      exists (view_before (build_results (inputs req) (now req)) c).
      split; [|reflexivity].
      rewrite Hc in Hf'. apply first_failing_in in Hf' as [Hcs _].
      apply view_before_prefix, Hcs. }
  destruct Hmid as (partial & Hall & ->).
  split.
  - exists partial. split; [exact Hall|].
    rewrite Hr, <- app_assoc. reflexivity.
  - intros label data file_name mime. rewrite Hr.
    rewrite !in_app_iff. cbn [In]. rewrite !in_app_iff.
    intros [Hin | [Hin | [Hin | [[Hin | Hin] | Hin]]]].
    + unfold page_head in Hin. destruct (opt_str_truthy _); simpl in Hin;
        intuition discriminate.
    + simpl in Hin. intuition discriminate.
    + discriminate Hin.
    + rewrite List.Forall_forall in Hall. apply (Hall _ Hin).
    + simpl in Hin. intuition discriminate.
    + simpl in Hin. intuition discriminate.
Qed.

Lemma failed_rendering_offers_no_export_witness :
  stored (step ∅ faulty_request)
  = Some (build_results (inputs faulty_request) (now faulty_request))
  /\ (forall label data file_name mime,
        ~ In (DownloadButton label data file_name mime)
            (rendered (page_after faulty_request ∅))).
Proof.
  destruct (failed_rendering_offers_no_export faulty_request ∅ sample_exc)
    as (Hs & _ & Hn);
    [reflexivity | vm_compute; discriminate | reflexivity |].
  exact (conj Hs Hn).
Defined.

(** X6: after any sequence of runs the stored result is the one built
    by the last submission among them; when there was none, it is what
    was stored before. *)
Theorem last_submission_is_stored (reqs : list request) :
  forall ss : gmap string ResearchResult.t,
    stored (steps ss reqs)
    = match last_submission reqs with
      | Some req => Some (build_results (inputs req) (now req))
      | None => stored ss
      end.
Proof.
  induction reqs as [|req rest IH]; intros ss; [reflexivity|].
  cbn [steps fold_left last_submission]. fold (steps (step ss req) rest).
  rewrite IH. destruct (last_submission rest); [reflexivity|].
  rewrite step_eq. fold (is_submission req).
  destruct (is_submission req); [|reflexivity].
  apply lookup_insert_eq.
Qed.

(** X7: a run writes no key of the session state other than
    ["results"]. *)
Theorem other_session_keys_untouched (req : request)
    (ss : gmap string ResearchResult.t) (key : string) :
  key <> "results" -> step ss req !! key = ss !! key.
Proof.
  intros Hk. rewrite step_eq.
  destruct (start_clicked _ && _); [|reflexivity].
  apply lookup_insert_ne. congruence.
Qed.

Lemma other_session_keys_untouched_witness :
  step {["draft" := sample_result]}
    (sample_request (lit "tiebreaker rules") StartResearch) !! "draft"
  = Some sample_result.
Proof.
  rewrite (other_session_keys_untouched
             (sample_request (lit "tiebreaker rules") StartResearch)
             {["draft" := sample_result]} "draft"); [reflexivity|].
  discriminate.
Defined.

(** X8: a run depends on the widget values through the query and the
    model alone: temperature, token limit, search depth, citation flag,
    domains and date range are read and never used, so they change
    neither the outcome nor the session state nor the page. *)
Theorem unused_controls_change_nothing (w w' : widgets) (req : request)
    (ss : gmap string ResearchResult.t) :
  query w = query w' -> model w = model w' ->
  run (with_inputs w req) ss = run (with_inputs w' req) ss.
Proof.
  intros Hq Hm. rewrite !run_eq.
  cbn [environ_key inputs range_now DeepResearch.now click plan with_inputs].
  assert (Hs : start_research w (now req) (click req)
               = start_research w' (now req) (click req)).
  { unfold start_research, research_body, build_results.
    rewrite Hq, Hm. reflexivity. }
  rewrite Hs. reflexivity.
Qed.

Lemma unused_controls_change_nothing_witness :
  run (with_inputs
         (mkWidgets gpt_4 (float_of_decimal false 0 0) 100
            (lit "tiebreaker rules") Basic true [] [])
         (sample_request [] StartResearch)) ∅
  = run (with_inputs
           (mkWidgets gpt_4 (float_of_decimal false 1 0) 4000
              (lit "tiebreaker rules") Comprehensive false
              [Tennis; Statistics] [sample_now; sample_now])
           (sample_request [] StartResearch)) ∅.
Proof.
  apply unused_controls_change_nothing; reflexivity.
Defined.

(** X9: the loop over the findings, when no call fails, renders one
    block for each finding of the list, in the order of the list, after
    what was on the page, and leaves the session state alone. *)
Theorem render_findings_blocks (f : faults) (fs : list Finding.t)
    (idx : nat) (ss : gmap string ResearchResult.t) (r : list element) :
  (forall c, f c = None) ->
  render_findings idx fs f (mkPage ss r)
  = (Returned tt, mkPage ss (r ++ map finding_block fs)).
Proof.
  intros Hf.
  rewrite (ext_render_findings fs idx f no_faults _ Hf).
  apply render_findings_ok.
Qed.

Lemma render_findings_blocks_witness :
  render_findings 0 [finding_2; finding_1; finding_2] no_faults
    (mkPage ∅ [start_button])
  = (Returned tt,
     mkPage ∅ ([start_button]
               ++ map finding_block [finding_2; finding_1; finding_2])).
Proof.
  apply (render_findings_blocks no_faults [finding_2; finding_1; finding_2]
           0 ∅ [start_button]).
  reflexivity.
Defined.

(** ** The characters of the export *)

Lemma hex_char_print d : d < 16 -> is_ascii_print (Json.hex_char d) = true.
Proof.
  apply (all_below (fun d => is_ascii_print (Json.hex_char d)) 16).
  vm_compute. reflexivity.
Qed.

Lemma hex4_print n : forallb is_ascii_print (Json.hex4 n) = true.
Proof.
  unfold Json.hex4. cbn [forallb].
  rewrite !hex_char_print by (apply N.mod_lt; discriminate). reflexivity.
Qed.

Lemma escape_char_print c : forallb is_ascii_print (Json.escape_char c) = true.
Proof.
  unfold Json.escape_char.
  repeat match goal with
  | |- context [if ?a =? ?b then _ else _] =>
      destruct (N.eqb_spec a b) as [->|?]; [reflexivity|]
  end.
  destruct ((32 <=? c) && (c <=? 126)) eqn:Hplain.
  - cbn [forallb]. unfold is_ascii_print. rewrite Hplain, orb_true_r.
    reflexivity.
  - destruct (c <? 0x10000).
    + cbn [forallb]. rewrite hex4_print. reflexivity.
    + cbv zeta. cbn [forallb]. rewrite forallb_app. cbn [forallb].
      rewrite !hex4_print. reflexivity.
Qed.

Lemma escape_print s : forallb is_ascii_print (Json.escape s) = true.
Proof.
  induction s as [|c s IH]; [reflexivity|].
  unfold Json.escape. cbn [flat_map]. rewrite forallb_app.
  rewrite escape_char_print. exact IH.
Qed.

Lemma dumps_result_print q m ts :
  forallb is_ascii_print
    (Json.dumps 2
       (ResearchResult.to_dict
          (ResearchResult.mk q m ts [finding_1; finding_2]))) = true.
Proof.
  rewrite dumps_result_members.
  repeat first [ rewrite forallb_app | rewrite escape_print
               | progress cbn [forallb] ].
  vm_compute. reflexivity.
Qed.

(** X10: the text of every download the page offers is made of line
    feeds and printable ASCII characters only, whatever characters the
    query holds. *)
Theorem export_is_ascii (req : request) (ss : gmap string ResearchResult.t)
    (label data file_name mime : pystr) :
  In (DownloadButton label data file_name mime)
     (rendered (page_after req ss)) ->
  forallb is_ascii_print data = true.
Proof.
  intros Hin.
  destruct (offered_download _ _ _ _ _ _ Hin) as (_ & _ & Heq).
  injection Heq as _ -> _ _. apply dumps_result_print.
Qed.

Lemma export_is_ascii_witness :
  forallb is_ascii_print
    (Json.dumps 2
       (ResearchResult.to_dict
          (build_results (sample_inputs [233; 0x1F600; 10; 34]) sample_now)))
  = true.
Proof.
  apply (export_is_ascii
           (sample_request [233; 0x1F600; 10; 34] StartResearch) ∅
           (lit "Export Results as JSON") _
           (lit "research_results.json") (lit "application/json")).
  apply (export_button_rendered
           (sample_request [233; 0x1F600; 10; 34] StartResearch) ∅);
    [reflexivity | discriminate | reflexivity].
Defined.

(** ** The width of the timestamp *)

Lemma dec_digits_length_le k : forall fuel n acc,
  n < 10 ^ N.of_nat k -> (1 <= k)%nat ->
  (length (dec_digits fuel n acc) <= length acc + k)%nat.
Proof.
  induction k as [|k IH]; intros fuel n acc Hn Hk; [lia|].
  destruct fuel as [|fuel]; cbn [dec_digits]; [lia|].
  destruct (N.ltb_spec n 10) as [Hlt | Hge]; [cbn [length]; lia|].
  rewrite Nat2N.inj_succ, N.pow_succ_r' in Hn.
  destruct k as [|k].
  { change (10 ^ N.of_nat 0) with 1 in Hn. lia. }
  etransitivity.
  - apply IH; [|lia]. apply N.Div0.div_lt_upper_bound. exact Hn.
  - cbn [length]. lia.
Qed.

Lemma fmt_0d_6_length n : n < 1000000 -> length (fmt_0d 6 n) = 6%nat.
Proof.
  intros Hn. unfold fmt_0d, zfill. rewrite length_app, repeat_length.
  pose proof (dec_digits_length_le 6 (S (N.to_nat (N.size n))) n [] Hn) as H.
  unfold dec. cbn [length] in H. lia.
Qed.

(** X11: the timestamp of a valid [datetime] has a fixed width: 19
    characters when the microsecond is zero, 26 otherwise. *)
Theorem timestamp_width (t : datetime) :
  valid_datetime t = true ->
  length (isoformat t)
  = if microsecond t =? 0 then 19%nat else 26%nat.
Proof.
  unfold valid_datetime. rewrite !andb_true_iff.
  rewrite !N.leb_le, !N.ltb_lt.
  intros (((((((((Hy1 & Hy2) & Hm1) & Hm2) & Hd1) & Hd2) & Hh) & Hn) & Hs) & Hu).
  assert (Hd3 : day t <= 31).
  { etransitivity; [exact Hd2|]. unfold days_in_month.
    repeat match goal with |- context [if ?b then _ else _] => destruct b end;
      lia. }
  unfold isoformat.
  rewrite (fmt_0d_4 (year t)), (fmt_0d_2 (month t)), (fmt_0d_2 (day t)),
    (fmt_0d_2 (hour t)), (fmt_0d_2 (minute t)), (fmt_0d_2 (second t)) by lia.
  cbn [app length].
  destruct (microsecond t =? 0); [reflexivity|].
  cbn [length]. rewrite (fmt_0d_6_length _ Hu). reflexivity.
Qed.

Lemma timestamp_width_witness :
  length (isoformat sample_now) = 26%nat
  /\ length (isoformat (mkDatetime 1999 12 31 23 59 59 0)) = 19%nat.
Proof.
  split.
  - apply (timestamp_width sample_now). reflexivity.
  - apply (timestamp_width (mkDatetime 1999 12 31 23 59 59 0)). reflexivity.
Defined.

(** ** The date range and the clock *)

(** X12: the date input of the form takes its default value, the range
    from 1 January 2000 to the clock's date, exactly when the clock
    reads a year from 1980 to 9989: before 1980 its upper bound, ten
    years after the clock's date, is before its lower bound, 1 January
    1990; after 9989 the upper bound is no date. *)
Theorem date_range_accepted_from_1980_to_9989 (t : datetime) :
  valid_datetime t = true ->
  date_range_accepted t = (1980 <=? year t) && (year t <=? 9989).
Proof.
  unfold valid_datetime. rewrite !andb_true_iff.
  rewrite !N.leb_le, !N.ltb_lt.
  intros (((((((((Hy1 & Hy2) & Hm1) & Hm2) & Hd1) & Hd2) & Hh) & Hn) & Hs) & Hu).
  unfold date_range_accepted, date_input_error.
  change (adjust_years (date_of range_start) (-10))
    with (inr (A := exc) (mkDate 1990 1 1)).
  unfold adjust_years, date_of. cbn [dyear dmonth dday].
  destruct (Z.leb_spec 1 (Z.of_N (year t) + 10)); [|lia].
  destruct (Z.leb_spec (Z.of_N (year t) + 10) 9999) as [Hle | Hgt];
    cbn [andb].
  - unfold date_ltb. cbn [dyear dmonth dday].
    replace (Z.to_N (Z.of_N (year t) + 10)) with (year t + 10) by lia.
    destruct (N.leb_spec (year t) 9989); [|lia]. rewrite andb_true_r.
    destruct (N.ltb_spec (month t) 1); [lia|].
    match goal with
    | |- context [(if ?b then 28 else day t) <? 1] =>
        destruct (N.ltb_spec (if b then 28 else day t) 1) as [Hlt|_];
        [destruct b; lia|]
    end.
    rewrite andb_false_r, orb_false_r, andb_false_r, orb_false_r.
    destruct (N.ltb_spec (year t + 10) 1990), (N.leb_spec 1980 (year t));
      first [reflexivity | lia].
  - destruct (N.leb_spec (year t) 9989); [lia|]. rewrite andb_false_r.
    reflexivity.
Qed.

Lemma date_range_accepted_from_1980_to_9989_witness :
  date_range_accepted sample_now = true
  /\ date_range_accepted unset_clock = false
  /\ date_range_accepted (mkDatetime 1979 12 31 23 59 59 999999) = false
  /\ date_range_accepted (mkDatetime 1980 1 1 0 0 0 0) = true
  /\ date_range_accepted (mkDatetime 9990 1 1 0 0 0 0) = false.
Proof.
  rewrite !date_range_accepted_from_1980_to_9989 by reflexivity.
  repeat split.
Defined.
